(** * Pokeball Plus mouse driver: packet decoding and calibration

    A shallow embedding of the decoding core of
    [pokeball_mouse_working.py] (class [PokeballMouseWorking]) and of the
    statistics of [tools/pokeball_calibrate.py] (class
    [PokeballCalibrator]), with the properties of the written
    specification stated and settled on it.

    Conventions of the embedding:
    - Python integers are [Z]; a packet (a [bytearray]) is a [list Z]
      whose elements the transport keeps in [0, 255] ([is_packet]);
    - Python floats are the kernel's binary64 floats ([PrimFloat]);
    - an operation that can raise returns a [result], the exception as
      [Raise e];
    - the virtual mouse ([evdev.UInput]) is the list of the calls made
      on it, in order ([write] and [syn]); [print] calls are left out. *)

From Stdlib Require Import ZArith QArith Qround Floats Lia.
From stdpp Require Import base list strings sorting.

Local Open Scope Z_scope.

(** ** Python primitives used by the two programs *)

Module Py.

Inductive exn : Set :=
  | IndexError
  | ValueError
  | OverflowError
  | ZeroDivisionError
  | StatisticsError.

Inductive result (A : Type) : Type :=
  | Ok (a : A)
  | Raise (e : exn).
Arguments Ok {A} a.
Arguments Raise {A} e.

Definition bind {A B : Type} (r : result A) (k : A → result B) : result B :=
  match r with
  | Ok a => k a
  | Raise e => Raise e
  end.

Declare Scope result_scope.
Delimit Scope result_scope with result.
Notation "'try' x ':=' r 'in' k" := (bind r (fun x => k))
  (at level 10, x name, r at level 100, k at level 200) : result_scope.

(** [len(l)] *)
Definition len {A : Type} (l : list A) : Z := Z.of_nat (length l).

(** [l[i]] for a constant index [i >= 0] *)
Definition getitem {A : Type} (l : list A) (i : nat) : result A :=
  match l !! i with
  | Some a => Ok a
  | None => Raise IndexError
  end.

(** [a // b] on integers: floor division, [ZeroDivisionError] on [b = 0] *)
Definition floordiv (a b : Z) : result Z :=
  if b =? 0 then Raise ZeroDivisionError else Ok (a / b).

(** [sum(l)] *)
Definition sum (l : list Z) : Z := foldl Z.add 0 l.

(** [max(l)] and [min(l)] of a list of integers; [ValueError] on [[]] *)
Definition max (l : list Z) : result Z :=
  match l with
  | [] => Raise ValueError
  | x :: l' => Ok (foldl Z.max x l')
  end.

Definition min (l : list Z) : result Z :=
  match l with
  | [] => Raise ValueError
  | x :: l' => Ok (foldl Z.min x l')
  end.

(** [sorted(l)] of a list of integers: the sorted rearrangement of [l]
    (on integers every sorting algorithm returns the same list). *)
Definition sorted (l : list Z) : list Z := merge_sort Z.le l.

(** [statistics.median(data)]: the middle element of the sorted data for
    an odd count, the arithmetic mean of the two middle elements for an
    even count (a float in Python, here the exact rational: the halves
    of integers below 2^53 are binary64 values). *)
Definition statistics_median (data : list Z) : result Q :=
  let data := sorted data in
  let n := length data in
  if (n =? 0)%nat then Raise StatisticsError
  else if (n mod 2 =? 1)%nat then
         (try m := getitem data (n / 2) in Ok (inject_Z m))%result
       else
         let i := (n / 2)%nat in
         (try a := getitem data (i - 1) in
          try b := getitem data i in
          Ok ((a + b) # 2))%result.

(** [int(q)] of a number: truncation toward zero *)
Definition int_Q (q : Q) : Z := Z.quot (Qnum q) (Zpos (Qden q)).

(** [float(z)]: the binary64 value nearest to [z] (ties to even);
    [OverflowError] when [z] is too large for a finite float. *)
Definition float_of_int (z : Z) : result float :=
  let f := SF2Prim (binary_normalize prec emax z 0 false) in
  if PrimFloat.is_infinity f then Raise OverflowError else Ok f.

(** [z * f] with [z] an integer and [f] a float: [float(z) * f] *)
Definition mul_int_float (z : Z) (f : float) : result float :=
  (try zf := float_of_int z in Ok (PrimFloat.mul zf f))%result.

(** [int(f)] of a float: truncation toward zero; [ValueError] on a NaN
    and [OverflowError] on an infinity. *)
Definition int_of_float (f : float) : result Z :=
  match Prim2SF f with
  | S754_zero _ => Ok 0
  | S754_finite s m e =>
      let a := Z.shiftl (Zpos m) e in
      Ok (if s then - a else a)
  | S754_infinity _ => Raise OverflowError
  | S754_nan => Raise ValueError
  end.

End Py.

Import Py.

(** ** The driver: [pokeball_mouse_working.py] *)

Module Driver.

Definition MAC_ADDRESS : string := "58:2F:40:8D:50:71".

(** The calls the driver makes on its [UInput] device. *)
Inductive ev_type : Set := EV_REL | EV_KEY.
Inductive ev_code : Set := REL_X | REL_Y | BTN_LEFT | BTN_RIGHT.
Inductive dev_call : Set :=
  | write (t : ev_type) (c : ev_code) (v : Z)
  | syn.

(** The callback a [BleakClient] notifies. *)
Inductive callback : Set := notification_handler_cb | cal_handler_cb.

Record BleakClient : Set := {
  address : string;
  is_connected : bool;
  notify : option callback
}.

(** The attributes of a [PokeballMouseWorking] object ([self.device] is
    the trace of [dev_call]s the methods return). *)
Record PokeballMouseWorking : Set := {
  client : option BleakClient;
  counter : Z;
  last_button_state : Z;
  y_center : Z;
  y_deadzone : Z;
  x_speed : Z;
  y_sensitivity : float
}.

Definition set_client (self : PokeballMouseWorking) (c : option BleakClient) :=
  {| client := c; counter := counter self;
     last_button_state := last_button_state self;
     y_center := y_center self; y_deadzone := y_deadzone self;
     x_speed := x_speed self; y_sensitivity := y_sensitivity self |}.

Definition set_counter (self : PokeballMouseWorking) (n : Z) :=
  {| client := client self; counter := n;
     last_button_state := last_button_state self;
     y_center := y_center self; y_deadzone := y_deadzone self;
     x_speed := x_speed self; y_sensitivity := y_sensitivity self |}.

Definition set_last_button_state (self : PokeballMouseWorking) (b : Z) :=
  {| client := client self; counter := counter self;
     last_button_state := b;
     y_center := y_center self; y_deadzone := y_deadzone self;
     x_speed := x_speed self; y_sensitivity := y_sensitivity self |}.

Definition set_y_center (self : PokeballMouseWorking) (c : Z) :=
  {| client := client self; counter := counter self;
     last_button_state := last_button_state self;
     y_center := c; y_deadzone := y_deadzone self;
     x_speed := x_speed self; y_sensitivity := y_sensitivity self |}.

(** [__init__]; the literal [0.4] is the binary64 value
    [0x1.999999999999ap-2]. *)
Definition init : PokeballMouseWorking :=
  {| client := None; counter := 0; last_button_state := 0;
     y_center := 118; y_deadzone := 15;
     x_speed := 20; y_sensitivity := 0x1.999999999999ap-2%float |}.

(** [connect]: a new client for the fixed address, connected, with
    [notification_handler] registered; no other attribute is assigned. *)
Definition connect (self : PokeballMouseWorking) : PokeballMouseWorking :=
  set_client self
    (Some {| address := MAC_ADDRESS; is_connected := true;
             notify := Some notification_handler_cb |}).

(** The transport dropping the link: [client.is_connected] turns false. *)
Definition link_lost (self : PokeballMouseWorking) : PokeballMouseWorking :=
  match client self with
  | Some c =>
      set_client self
        (Some {| address := address c; is_connected := false;
                 notify := None |})
  | None => self
  end.

(** One turn of the [while True] loop of [run], after the sleep:
    reconnect when the client reports the link down. The loop is only
    entered after [connect], so a client is there; without one the
    model leaves the object as it is. *)
Definition run_poll (self : PokeballMouseWorking) : PokeballMouseWorking :=
  match client self with
  | Some c => if negb (is_connected c) then connect self else self
  | None => self
  end.

(** [get_x_direction] *)
Definition get_x_direction (self : PokeballMouseWorking) (nibble_value : Z)
  : string * Z :=
  if (nibble_value =? 2) || (nibble_value =? 3) then
    ("LEFT", - x_speed self)
  else if (4 <=? nibble_value) && (nibble_value <? 8) then
    ("CENTER", 0)
  else if 8 <=? nibble_value then
    ("RIGHT", x_speed self)
  else
    if nibble_value <? 2 then ("LEFT", - x_speed self)
    else ("CENTER", 0).

(** Lines 93-96 of [notification_handler]: the analog Y movement. *)
Definition y_move_of (self : PokeballMouseWorking) (y_raw : Z) : result Z :=
  let y_offset := y_raw - y_center self in
  let y_offset := if Z.abs y_offset <? y_deadzone self then 0 else y_offset in
  (try p := mul_int_float y_offset (y_sensitivity self) in
   int_of_float p)%result.

(** Lines 99-104: the writes of a movement. *)
Definition send_movement (x_move y_move : Z) : list dev_call :=
  if negb (x_move =? 0) || negb (y_move =? 0) then
    (if negb (x_move =? 0) then [write EV_REL REL_X x_move] else [])
    ++ (if negb (y_move =? 0) then [write EV_REL REL_Y y_move] else [])
    ++ [syn]
  else [].

(** Lines 111-127: the button block, from the mask of the packet and
    the stored one to the writes and the new stored mask. *)
Definition handle_buttons (buttons last : Z) : list dev_call * Z :=
  if negb (buttons =? last) then
    ([write EV_KEY BTN_LEFT (if negb (Z.land buttons 0x01 =? 0) then 1 else 0);
      write EV_KEY BTN_RIGHT (if negb (Z.land buttons 0x02 =? 0) then 1 else 0);
      syn],
     buttons)
  else ([], last).

(** How a call of [notification_handler] ended. *)
Inductive outcome : Set :=
  | Skipped                            (* [counter % 3 != 0]: return *)
  | Ignored                            (* [len(data) < 5]: nothing done *)
  | Processed (calls : list dev_call)  (* decoded; the device calls made *)
  | Raised (e : exn).                  (* an exception left the handler *)

(** [notification_handler] *)
Definition notification_handler (self : PokeballMouseWorking) (data : list Z)
  : PokeballMouseWorking * outcome :=
  let self := set_counter self (counter self + 1) in
  if negb (counter self mod 3 =? 0) then (self, Skipped)
  else if 5 <=? len data then
    match
      (try buttons := getitem data 1 in
       try b3 := getitem data 3 in
       let x_nibble := Z.land b3 0x0F in
       let '(x_direction, x_move) := get_x_direction self x_nibble in
       try y_raw := getitem data 4 in
       try y_move := y_move_of self y_raw in
       Ok (buttons, x_move, y_move))%result
    with
    | Raise e => (self, Raised e)
    | Ok (buttons, x_move, y_move) =>
        let '(clicks, last) := handle_buttons buttons (last_button_state self) in
        (set_last_button_state self last,
         Processed (send_movement x_move y_move ++ clicks))
    end
  else (self, Ignored).

(** The device calls of a handler call. *)
Definition emitted (o : outcome) : list dev_call :=
  match o with
  | Processed calls => calls
  | _ => []
  end.

(** The call got past the decimation test. *)
Definition eligible (o : outcome) : bool :=
  match o with
  | Skipped => false
  | _ => true
  end.

(** The call entered the decoding branch. *)
Definition decoded (o : outcome) : bool :=
  match o with
  | Processed _ | Raised _ => true
  | _ => false
  end.

(** The packets of a stream handed to [notification_handler] one after
    the other, each call on the object as the call before left it. *)
Fixpoint deliver (self : PokeballMouseWorking) (pkts : list (list Z))
  : PokeballMouseWorking * list outcome :=
  match pkts with
  | [] => (self, [])
  | data :: rest =>
      let '(self1, o) := notification_handler self data in
      let '(self2, os) := deliver self1 rest in
      (self2, o :: os)
  end.

(** [cal_handler], the closure of [calibrate_y_axis], on the pair
    ([y_samples], [x_samples]). *)
Definition cal_handler (samples : list Z * list Z) (data : list Z)
  : result (list Z * list Z) :=
  let '(y_samples, x_samples) := samples in
  if 5 <=? len data then
    (try d4 := getitem data 4 in
     try d3 := getitem data 3 in
     Ok (y_samples ++ [d4], x_samples ++ [Z.land d3 0x0F]))%result
  else Ok samples.

Fixpoint collect (samples : list Z * list Z) (pkts : list (list Z))
  : result (list Z * list Z) :=
  match pkts with
  | [] => Ok samples
  | data :: rest =>
      (try samples1 := cal_handler samples data in collect samples1 rest)%result
  end.

(** [calibrate_y_axis], on the packets the transport delivers during the
    two seconds [cal_handler] is registered. The block under
    [if x_samples:] only prints (the most common nibble and its
    direction) and assigns nothing. *)
Definition calibrate_y_axis (self : PokeballMouseWorking) (pkts : list (list Z))
  : result PokeballMouseWorking :=
  (try samples := collect ([], []) pkts in
   let '(y_samples, x_samples) := samples in
   if negb (len y_samples =? 0) then
     try c := floordiv (sum y_samples) (len y_samples) in
     Ok (set_y_center self c)
   else Ok self)%result.

(** What reaches the object while [run] sleeps in its loop: the
    transport delivers a notification to [notification_handler], or the
    link drops and the next turn of the loop finds the client
    disconnected and calls [connect]. *)
Inductive event : Set :=
  | Notification (data : list Z)
  | Reconnection.

(** The loop of [run] over the events of a session: the outcome of every
    notification, in order. *)
Fixpoint run_loop (self : PokeballMouseWorking) (evs : list event)
  : PokeballMouseWorking * list outcome :=
  match evs with
  | [] => (self, [])
  | Notification data :: rest =>
      let '(self1, o) := notification_handler self data in
      let '(self2, os) := run_loop self1 rest in
      (self2, o :: os)
  | Reconnection :: rest => run_loop (run_poll (link_lost self)) rest
  end.

(** [run]: connect, calibrate on the packets of the calibration window,
    then the loop. An exception of the calibration leaves [run] through
    its [except] clause before the loop is entered. *)
Definition run (self : PokeballMouseWorking) (cal_pkts : list (list Z))
    (evs : list event) : result (PokeballMouseWorking * list outcome) :=
  let self := connect self in
  (try self := calibrate_y_axis self cal_pkts in
   Ok (run_loop self evs))%result.

End Driver.

(** ** The calibration tool: [tools/pokeball_calibrate.py] *)

Module Calibrator.

Record PokeballCalibrator : Set := {
  x_values : list Z;
  y_values : list Z;
  sample_count : Z;
  max_samples : Z
}.

(** [__init__] *)
Definition init : PokeballCalibrator :=
  {| x_values := []; y_values := []; sample_count := 0; max_samples := 500 |}.

(** [notification_handler]: one sample per packet of four bytes or more,
    until [max_samples] are stored. *)
Definition notification_handler (self : PokeballCalibrator) (data : list Z)
  : result PokeballCalibrator :=
  if (4 <=? len data) && (sample_count self <? max_samples self) then
    (try x := getitem data 2 in
     try y := getitem data 3 in
     Ok {| x_values := x_values self ++ [x];
           y_values := y_values self ++ [y];
           sample_count := sample_count self + 1;
           max_samples := max_samples self |})%result
  else Ok self.

(** What [calibrate] computes from the stored samples (lines 67-89) and
    then prints and saves. The two means are only printed and are left
    out. *)
Record statistics : Set := {
  x_median : Z;
  y_median : Z;
  x_min : Z;
  x_max : Z;
  y_min : Z;
  y_max : Z;
  x_drift : Z;
  y_drift : Z;
  recommended_deadzone : Z
}.

Definition calibrate (self : PokeballCalibrator) : result statistics :=
  (try xm := statistics_median (x_values self) in
   let x_median := int_Q xm in
   try ym := statistics_median (y_values self) in
   let y_median := int_Q ym in
   try x_min := Py.min (x_values self) in
   try x_max := Py.max (x_values self) in
   try y_min := Py.min (y_values self) in
   try y_max := Py.max (y_values self) in
   let x_drift := x_max - x_min in
   let y_drift := y_max - y_min in
   let recommended_deadzone := Z.max x_drift y_drift + 5 in
   Ok {| x_median := x_median; y_median := y_median;
         x_min := x_min; x_max := x_max;
         y_min := y_min; y_max := y_max;
         x_drift := x_drift; y_drift := y_drift;
         recommended_deadzone := recommended_deadzone |})%result.

(** The lines written to the calibration file, as key and value. *)
Definition saved (s : statistics) : list (string * Z) :=
  [("center_x", x_median s); ("center_y", y_median s);
   ("deadzone", recommended_deadzone s)].

(** The packets of a stream handed to [notification_handler] one after
    the other. *)
Fixpoint feed (self : PokeballCalibrator) (pkts : list (list Z))
  : result PokeballCalibrator :=
  match pkts with
  | [] => Ok self
  | data :: rest =>
      (try self1 := notification_handler self data in feed self1 rest)%result
  end.

(** The test that ends the waiting loop of [calibrate]:
    [sample_count < max_samples] no longer holds. *)
Definition collected (self : PokeballCalibrator) : bool :=
  negb (sample_count self <? max_samples self).

End Calibrator.

(** ** The dashboard: [tools/pokeball_dashboard.py] *)

Module Dashboard.

(** The attributes of an [InteractiveAnalyzer] the packets touch (the
    client and the start time are left out). *)
Record InteractiveAnalyzer : Set := {
  last_data : option (list Z);
  current_data : option (list Z);
  baseline_data : option (list Z);
  packet_count : Z
}.

(** [__init__] *)
Definition init : InteractiveAnalyzer :=
  {| last_data := None; current_data := None; baseline_data := None;
     packet_count := 0 |}.

(** [notification_handler] *)
Definition notification_handler (self : InteractiveAnalyzer) (data : list Z)
  : InteractiveAnalyzer :=
  {| last_data := last_data self;
     current_data := Some data;
     baseline_data := match baseline_data self with
                      | None => Some data
                      | Some b => Some b
                      end;
     packet_count := packet_count self + 1 |}.

(** The packets of a stream handed to [notification_handler] one after
    the other, with no display in between. *)
Definition receive (self : InteractiveAnalyzer) (pkts : list (list Z))
  : InteractiveAnalyzer :=
  foldl notification_handler self pkts.

(** The truth value Python gives an attribute that is [None] or a
    [bytearray]: false for [None] and for the empty array. *)
Definition truthy (d : option (list Z)) : bool :=
  match d with
  | Some (_ :: _) => true
  | _ => false
  end.

(** A line of the byte table: the index, the byte and, when the byte
    differs from the one of the packet displayed before, the difference
    and that earlier byte. *)
Record row : Set := {
  index : nat;
  byte_val : Z;
  change : option (Z * Z)
}.

Definition row_of (last : option (list Z)) (i : nat) (byte_val : Z) : row :=
  {| index := i; byte_val := byte_val;
     change :=
       if truthy last then
         match default [] last !! i with
         | Some previous =>
             if negb (byte_val =? previous)
             then Some (byte_val - previous, previous)
             else None
         | None => None
         end
       else None |}.

(** The arrow beside the Y value. *)
Inductive indicator : Set := Up | Down | Still.

(** The values of the interpretation block. *)
Record interpretation : Set := {
  x_nibble : Z;
  bl_x_nibble : Z;
  x_byte2 : Z;
  bl_x_byte2 : Z;
  x_byte3 : Z;
  bl_x_byte3 : Z;
  y_val : Z;
  bl_y : Z;
  y_diff : Z;
  y_indicator : indicator;
  button_a : bool;
  button_b : bool
}.

(** A value read from the baseline packet when there is one (and it is
    not empty), else 0. *)
Definition baseline_or_0 (baseline : option (list Z)) (f : list Z → result Z)
  : result Z :=
  if truthy baseline then f (default [] baseline) else Ok 0.

(** The interpretation block of [display_data], for a current packet of
    five bytes or more: the three X theories, the Y value and the
    buttons, each against the baseline. *)
Definition interpret (current : list Z) (baseline : option (list Z))
  : result interpretation :=
  (try c2 := getitem current 2 in
   try c3 := getitem current 3 in
   let x_low := Z.land c2 0x0F in
   let x_high := Z.land (Z.shiftr c3 4) 0x0F in
   let x_nibble := Z.lor (Z.shiftl x_low 4) x_high in
   try bl_x_nibble :=
     baseline_or_0 baseline (λ bl,
       try b2 := getitem bl 2 in
       try b3 := getitem bl 3 in
       let bl_x_low := Z.land b2 0x0F in
       let bl_x_high := Z.land (Z.shiftr b3 4) 0x0F in
       Ok (Z.lor (Z.shiftl bl_x_low 4) bl_x_high)) in
   try bl_x_byte2 := baseline_or_0 baseline (λ bl, getitem bl 2) in
   try bl_x_byte3 := baseline_or_0 baseline (λ bl, getitem bl 3) in
   try y_val := getitem current 4 in
   try bl_y := baseline_or_0 baseline (λ bl, getitem bl 4) in
   let y_diff := y_val - bl_y in
   let y_indicator :=
     if y_diff <? -10 then Up else if 10 <? y_diff then Down else Still in
   try buttons := getitem current 1 in
   Ok {| x_nibble := x_nibble; bl_x_nibble := bl_x_nibble;
         x_byte2 := c2; bl_x_byte2 := bl_x_byte2;
         x_byte3 := c3; bl_x_byte3 := bl_x_byte3;
         y_val := y_val; bl_y := bl_y; y_diff := y_diff;
         y_indicator := y_indicator;
         button_a := negb (Z.land buttons 0x02 =? 0);
         button_b := negb (Z.land buttons 0x01 =? 0) |})%result.

(** What [display_data] shows. *)
Inductive screen : Set :=
  | Waiting
  | Bytes (rows : list row) (interp : option interpretation).

(** [display_data]: the values it prints and the object it leaves. The
    header (packet rate by the clock) and the formatting are left out.
    An exception leaves the function before [last_data] is assigned. *)
Definition display_data (self : InteractiveAnalyzer)
  : InteractiveAnalyzer * result screen :=
  if negb (truthy (current_data self)) then (self, Ok Waiting)
  else
    let current := default [] (current_data self) in
    let data_len := Z.min (len current) 10 in
    let rows := imap (row_of (last_data self)) (take (Z.to_nat data_len) current) in
    let shown := {| last_data := current_data self;
                    current_data := current_data self;
                    baseline_data := baseline_data self;
                    packet_count := packet_count self |} in
    if 5 <=? data_len then
      match interpret current (baseline_data self) with
      | Ok i => (shown, Ok (Bytes rows (Some i)))
      | Raise e => (self, Raise e)
      end
    else (shown, Ok (Bytes rows None)).

End Dashboard.

(** ** Notions of the specification *)

(** A packet as the transport delivers it: every element is a byte. *)
Definition is_packet (data : list Z) : Prop :=
  Forall (λ b, 0 ≤ b < 256) data.

(** [m] is a median of [l]: at least half of the values are at most [m]
    and at least half are at least [m]. *)
Definition is_median (m : Z) (l : list Z) : Prop :=
  len l ≤ 2 * len (filter (λ y, y ≤ m) l) ∧
  len l ≤ 2 * len (filter (λ y, m ≤ y) l).

(** [v] is the value of rank [k] (from 0) of [l] in increasing order:
    at most [k] values of [l] are smaller than [v], and more than [k]
    are at most [v]. A list has at most one value of a given rank. *)
Definition is_order_statistic (k : nat) (v : Z) (l : list Z) : Prop :=
  (length (filter (λ y : Z, (y < v)%Z) l) ≤ k)%nat
  ∧ (k < length (filter (λ y : Z, (y ≤ v)%Z) l))%nat.

(** [m] is the integer median of [l]: the middle value in increasing
    order for an odd count; for an even count the mean of the two
    middle values, cut toward zero. *)
Definition is_int_median (m : Z) (l : list Z) : Prop :=
  if (length l mod 2 =? 1)%nat then
    is_order_statistic (length l / 2) m l
  else
    ∃ a b : Z,
      is_order_statistic (length l / 2 - 1) a l
      ∧ is_order_statistic (length l / 2) b l
      ∧ m = Z.quot (a + b) 2.

(** [m] is the greatest (least) value of [l]. *)
Definition is_greatest (m : Z) (l : list Z) : Prop :=
  m ∈ l ∧ Forall (λ y, y ≤ m) l.

Definition is_least (m : Z) (l : list Z) : Prop :=
  m ∈ l ∧ Forall (λ y, m ≤ y) l.

(** The y values an in-session calibration window holds: byte 4 of every
    packet of five bytes or more. *)
Definition window_y (pkts : list (list Z)) : list Z :=
  omap (λ data : list Z, if 5 <=? len data then data !! 4%nat else None) pkts.

(** The click events of the specification read off the device calls. *)
Inductive button : Set := PRIMARY | SECONDARY.

Definition click_of (c : Driver.dev_call) : option (button * bool) :=
  match c with
  | Driver.write Driver.EV_KEY Driver.BTN_LEFT v => Some (PRIMARY, negb (v =? 0))
  | Driver.write Driver.EV_KEY Driver.BTN_RIGHT v => Some (SECONDARY, negb (v =? 0))
  | _ => None
  end.

Definition clicks_of (calls : list Driver.dev_call) : list (button * bool) :=
  omap click_of calls.

(** Bit [i] of a button mask. *)
Definition bit (mask : Z) (i : Z) : bool := Z.testbit mask i.

(** The button block run over a sequence of masks, from a stored mask:
    the device calls of each mask. *)
Fixpoint detect (last : Z) (masks : list Z) : list (list Driver.dev_call) :=
  match masks with
  | [] => []
  | m :: rest =>
      let '(calls, last1) := Driver.handle_buttons m last in
      calls :: detect last1 rest
  end.

(** The sensitivity [__init__] sets and nothing changes: the float 0.4. *)
Definition default_sensitivity : float := 0x1.999999999999ap-2%float.

(** [offset × 0.4] in exact arithmetic, cut toward zero. *)
Definition truncated_scaled (offset : Z) : Z :=
  int_Q (inject_Z offset * (2 # 5)).

(** The same product rounded down instead. *)
Definition floored_scaled (offset : Z) : Z :=
  Qfloor (inject_Z offset * (2 # 5)).

(** The float product of the driver agrees with the exact one. *)
Definition scaled_agrees (offset : Z) : bool :=
  match bind (mul_int_float offset default_sensitivity) int_of_float with
  | Ok v => v =? truncated_scaled offset
  | Raise _ => false
  end.

(** The samples the calibration tool reads off a stream: bytes 2 and 3
    of every packet of four bytes or more. *)
Definition samples_x (pkts : list (list Z)) : list Z :=
  omap (λ data : list Z, if 4 <=? len data then data !! 2%nat else None) pkts.

Definition samples_y (pkts : list (list Z)) : list Z :=
  omap (λ data : list Z, if 4 <=? len data then data !! 3%nat else None) pkts.

(** A device call the kernel can make sense of: a relative movement that
    is not zero on an axis of the device, a key value 0 or 1 on one of
    its two buttons, or a synchronisation. *)
Definition call_ok (c : Driver.dev_call) : Prop :=
  match c with
  | Driver.write Driver.EV_REL Driver.REL_X v => v ≠ 0
  | Driver.write Driver.EV_REL Driver.REL_Y v => v ≠ 0
  | Driver.write Driver.EV_KEY Driver.BTN_LEFT v => v = 0 ∨ v = 1
  | Driver.write Driver.EV_KEY Driver.BTN_RIGHT v => v = 0 ∨ v = 1
  | Driver.write _ _ _ => False
  | Driver.syn => True
  end.

(** The state of the two virtual buttons (left, right) as the device
    calls leave it. *)
Definition press (view : bool * bool) (c : Driver.dev_call) : bool * bool :=
  match c with
  | Driver.write Driver.EV_KEY Driver.BTN_LEFT v => (negb (v =? 0), snd view)
  | Driver.write Driver.EV_KEY Driver.BTN_RIGHT v => (fst view, negb (v =? 0))
  | _ => view
  end.

Definition presses (view : bool * bool) (calls : list Driver.dev_call)
  : bool * bool :=
  foldl press view calls.

(** The buttons a mask shows: bit 0 the top button (left click), bit 1
    the stick (right click). *)
Definition shown (mask : Z) : bool * bool := (bit mask 0, bit mask 1).

(** The notifications among the events of a session. *)
Definition notifications (evs : list Driver.event) : list (list Z) :=
  omap (λ ev, match ev with
              | Driver.Notification data => Some data
              | Driver.Reconnection => None
              end) evs.

(** The settings a session runs with: the sensitivity of [__init__] and
    a center that is a byte value. *)
Definition settled (self : Driver.PokeballMouseWorking) : Prop :=
  Driver.y_sensitivity self = default_sensitivity ∧ 0 ≤ Driver.y_center self ≤ 255.

(** ** Sample inputs *)

(** A packet with the stick to the right and up and the top button
    held, and a packet cut to three bytes. *)
Definition moving_packet : list Z := [0; 1; 0; 8; 200].
Definition short_packet : list Z := [0; 1; 0].

(** A packet at rest with the top button held, and one with no button. *)
Definition held_packet : list Z := [0; 1; 0; 4; 118].
Definition idle_packet : list Z := [0; 0; 0; 4; 118].

(** The driver after three packets with the top button held. *)
Definition holding : Driver.PokeballMouseWorking :=
  fst (Driver.deliver (Driver.connect Driver.init)
         [held_packet; held_packet; held_packet]).

(** The window of the specification's example: a still X axis and the
    y values 100, 102, 98, 104, 96. *)
Definition example_window : Calibrator.PokeballCalibrator :=
  {| Calibrator.x_values := [7; 7; 7; 7; 7];
     Calibrator.y_values := [100; 102; 98; 104; 96];
     Calibrator.sample_count := 5; Calibrator.max_samples := 5 |}.

(** A window of four samples whose two middle y values, 100 and 103,
    have no integer mean. *)
Definition paired_window : Calibrator.PokeballCalibrator :=
  {| Calibrator.x_values := [4; 4; 4; 4];
     Calibrator.y_values := [100; 103; 96; 104];
     Calibrator.sample_count := 4; Calibrator.max_samples := 4 |}.

(** Three packets at rest, the third with a y value of 3, and the same
    samples as the calibration tool would hold them. *)
Definition skewed_packets : list (list Z) :=
  [[0; 0; 0; 4; 0]; [0; 0; 0; 4; 0]; [0; 0; 0; 4; 3]].

Definition skewed_window : Calibrator.PokeballCalibrator :=
  {| Calibrator.x_values := [4; 4; 4];
     Calibrator.y_values := [0; 0; 3];
     Calibrator.sample_count := 3; Calibrator.max_samples := 3 |}.

(** ** X axis: [get_x_direction] *)

Section XAxis.
Import Driver.

(** The nibble the handler classifies is always in the 0..15 domain. *)
Lemma low_nibble_range (b : Z) : 0 ≤ Z.land b 0x0F ≤ 15.
Proof.
  assert (H : Z.land b 0x0F = b mod 16).
  { change 0x0F with (Z.ones 4). rewrite Z.land_ones by lia. reflexivity. }
  rewrite H. pose proof (Z.mod_pos_bound b 16 eq_refl). lia.
Qed.

(** C4. [get_x_direction] (classifyX) is total on the nibbles 0..15 and
    returns one classification for each: nibbles 0, 1, 2 and 3 give LEFT
    with magnitude [- x_speed], nibbles 4..7 give CENTER with magnitude
    0, and nibbles 8..15 give RIGHT with magnitude [+ x_speed]. *)
Theorem get_x_direction_total (self : PokeballMouseWorking) (nibble : Z) :
  0 ≤ nibble ≤ 15 →
  get_x_direction self nibble =
    if nibble <=? 3 then ("LEFT", - x_speed self)
    else if nibble <=? 7 then ("CENTER", 0)
    else ("RIGHT", x_speed self).
Proof.
  intros Hn. unfold get_x_direction.
  repeat match goal with
         | |- context [ (?a =? ?b) ] => destruct (Z.eqb_spec a b)
         | |- context [ (?a <=? ?b) ] => destruct (Z.leb_spec a b)
         | |- context [ (?a <? ?b) ] => destruct (Z.ltb_spec a b)
         end; simpl; try reflexivity; lia.
Qed.

Lemma get_x_direction_total_witness :
  get_x_direction init 2 = ("LEFT", -20) ∧
  get_x_direction init 0 = ("LEFT", -20) ∧
  get_x_direction init 5 = ("CENTER", 0) ∧
  get_x_direction init 15 = ("RIGHT", 20).
Proof.
  split; [| split; [| split]].
  - apply (get_x_direction_total init 2); lia.
  - apply (get_x_direction_total init 0); lia.
  - apply (get_x_direction_total init 5); lia.
  - apply (get_x_direction_total init 15); lia.
Defined.

End XAxis.

(** ** Buttons: the edge detector inside [notification_handler] *)

Section Buttons.
Import Driver.

Lemma land_1_bit (m : Z) : negb (Z.land m 0x01 =? 0) = bit m 0.
Proof.
  unfold bit. rewrite Z.bit0_odd.
  change 0x01 with (Z.ones 1). rewrite Z.land_ones by lia.
  change (2 ^ 1) with 2. rewrite Zmod_odd.
  destruct (Z.odd m); reflexivity.
Qed.

Lemma land_2_bit (m : Z) : negb (Z.land m 0x02 =? 0) = bit m 1.
Proof.
  unfold bit.
  assert (H : Z.land m 2 = if Z.testbit m 1 then 2 else 0).
  { apply Z.bits_inj'. intros n Hn. rewrite Z.land_spec.
    change 2 with (2 ^ 1) at 1. rewrite Z.pow2_bits_eqb by lia.
    destruct (Z.eqb_spec 1 n) as [<- | Hne].
    - rewrite andb_true_r. destruct (Z.testbit m 1); reflexivity.
    - rewrite andb_false_r. destruct (Z.testbit m 1).
      + change 2 with (2 ^ 1). rewrite Z.pow2_bits_eqb by lia.
        symmetry. apply Z.eqb_neq. exact Hne.
      + symmetry. apply Z.bits_0. }
  rewrite H. destruct (Z.testbit m 1); reflexivity.
Qed.

(** What the button block writes, as click events. *)
Lemma handle_buttons_clicks (cur prev : Z) :
  clicks_of (fst (handle_buttons cur prev)) =
    if cur =? prev then []
    else [(PRIMARY, bit cur 0); (SECONDARY, bit cur 1)].
Proof.
  unfold handle_buttons. rewrite <- land_1_bit, <- land_2_bit.
  destruct (cur =? prev); simpl; [reflexivity |].
  destruct (Z.land cur 1 =? 0), (Z.land cur 2 =? 0); reflexivity.
Qed.

Lemma handle_buttons_last (cur prev : Z) : snd (handle_buttons cur prev) = cur.
Proof.
  unfold handle_buttons. destruct (Z.eqb_spec cur prev); simpl; congruence.
Qed.

(** C3, as the code has it. The button block compares the whole mask:
    it emits click events exactly when the current mask differs from the
    stored one, and then one event for each of PRIMARY and SECONDARY
    with the current value of its bit, changed or not; the current mask
    becomes the stored one. On the masks 0, 1, 1, 3, 3, 0 from a stored
    0, three groups are emitted (at 1, at 3 and at the last 0), and the
    group at 3 holds a PRIMARY press again beside the SECONDARY press. *)
Theorem button_block_whole_mask :
  (∀ prev cur : Z,
     clicks_of (fst (handle_buttons cur prev)) =
       (if cur =? prev then []
        else [(PRIMARY, bit cur 0); (SECONDARY, bit cur 1)])
     ∧ snd (handle_buttons cur prev) = cur)
  ∧ map clicks_of (detect 0 [0; 1; 1; 3; 3; 0]) =
      [ [];
        [(PRIMARY, true); (SECONDARY, false)];
        [];
        [(PRIMARY, true); (SECONDARY, true)];
        [];
        [(PRIMARY, false); (SECONDARY, false)] ]
  ∧ length (filter (λ g, g ≠ []) (detect 0 [0; 1; 1; 3; 3; 0])) = 3%nat.
Proof.
  split; [| split].
  - intros prev cur. split.
    + apply handle_buttons_clicks.
    + apply handle_buttons_last.
  - reflexivity.
  - reflexivity.
Qed.

(** C3, as stated, fails: from the stored mask 1 the mask 3 makes the
    block emit a PRIMARY event although bit 0 is the same in both. *)
Lemma button_block_unchanged_bit_emitted :
  ¬ (∀ (prev cur : Z) (b : button) (pressed : bool),
       (b, pressed) ∈ clicks_of (fst (handle_buttons cur prev)) →
       bit cur (match b with PRIMARY => 0 | SECONDARY => 1 end)
       ≠ bit prev (match b with PRIMARY => 0 | SECONDARY => 1 end)).
Proof.
  intros H. apply (H 1 3 PRIMARY true).
  - vm_compute. apply list_elem_of_here.
  - reflexivity.
Qed.

End Buttons.

(** ** Y axis: deadzone and sensitivity *)

Section YAxis.
Import Driver.

(** Every offset two bytes can be apart: the float product, cut by
    [int], is the exact product cut toward zero. *)
Lemma scaled_agrees_bytes : forallb scaled_agrees (seqZ (-255) 511) = true.
Proof. vm_compute. reflexivity. Qed.

Lemma scaled_default (offset : Z) :
  -255 ≤ offset ≤ 255 →
  bind (mul_int_float offset default_sensitivity) int_of_float
  = Ok (truncated_scaled offset).
Proof.
  intros Ho.
  pose proof (proj1 (forallb_forall _ _) scaled_agrees_bytes offset) as H.
  unfold scaled_agrees in H.
  destruct (bind (mul_int_float offset default_sensitivity) int_of_float) as [v | e].
  - f_equal. apply Z.eqb_eq, H. apply list_elem_of_In, elem_of_seqZ. lia.
  - discriminate H. apply list_elem_of_In, elem_of_seqZ. lia.
Qed.

Lemma y_move_of_default (self : PokeballMouseWorking) (y_raw : Z) :
  y_sensitivity self = default_sensitivity →
  0 ≤ y_raw ≤ 255 →
  0 ≤ y_center self ≤ 255 →
  y_move_of self y_raw =
    Ok (if Z.abs (y_raw - y_center self) <? y_deadzone self then 0
        else truncated_scaled (y_raw - y_center self)).
Proof.
  intros Hs Hy Hc. unfold y_move_of. rewrite Hs.
  destruct (Z.abs (y_raw - y_center self) <? y_deadzone self).
  - apply (scaled_default 0). lia.
  - apply scaled_default. lia.
Qed.

(** C5. For every 8-bit [y_raw] and every profile (a center a
    calibration can produce, any deadzone), with the driver's
    sensitivity 0.4: the Y movement is 0 whenever
    [|y_raw - y_center| < y_deadzone] (strictly), and otherwise
    [(y_raw - y_center) × 0.4] cut toward zero. *)
Theorem y_move_deadzone_truncation (self : PokeballMouseWorking) (y_raw : Z) :
  y_sensitivity self = default_sensitivity →
  0 ≤ y_raw ≤ 255 →
  0 ≤ y_center self ≤ 255 →
  y_move_of self y_raw =
    Ok (if Z.abs (y_raw - y_center self) <? y_deadzone self then 0
        else truncated_scaled (y_raw - y_center self)).
Proof. apply y_move_of_default. Qed.

(** With center 118, deadzone 15 and sensitivity 0.4, the raw value 90
    gives -11; rounding down would give -12. *)
Lemma y_move_deadzone_truncation_witness :
  y_move_of init 90 = Ok (-11) ∧ floored_scaled (90 - 118) = -12.
Proof.
  split.
  - apply (y_move_deadzone_truncation init 90); [reflexivity | lia | simpl; lia].
  - reflexivity.
Defined.

(** The other values of the specification's table: inside the deadzone
    (offset 0 and 12) the movement is 0; at offset 22 it is 8; an offset
    of exactly the deadzone is outside it. *)
Example y_move_table :
  y_move_of init 118 = Ok 0 ∧ y_move_of init 130 = Ok 0 ∧
  y_move_of init 140 = Ok 8 ∧ y_move_of init 133 = Ok 6 ∧
  y_move_of init 132 = Ok 0.
Proof. vm_compute. repeat split. Qed.

End YAxis.

(** ** Decimation and short packets: [notification_handler] *)

Section Decimation.
Import Driver.

Local Ltac handler_cases :=
  unfold notification_handler; cbn [counter set_counter];
  repeat match goal with
         | |- context [ (?a mod 3 =? 0) ] => destruct (a mod 3 =? 0) eqn:?
         | |- context [ (5 <=? ?a) ] => destruct (Z.leb_spec 5 a)
         | |- context [ match ?r with Ok _ => _ | Raise _ => _ end ] =>
             destruct r as [[[? ?] ?] | ?]
         | |- context [ handle_buttons ?b ?l ] => destruct (handle_buttons b l)
         end; cbn.

(** Every call adds one to the counter, whatever the packet. *)
Lemma handler_counter (self : PokeballMouseWorking) (data : list Z) :
  counter (fst (notification_handler self data)) = counter self + 1.
Proof. handler_cases; reflexivity. Qed.

(** A call gets past the decimation test exactly on a counter that
    reaches a multiple of 3. *)
Lemma handler_eligible (self : PokeballMouseWorking) (data : list Z) :
  eligible (snd (notification_handler self data))
  = ((counter self + 1) mod 3 =? 0).
Proof. handler_cases; reflexivity. Qed.

(** A packet of five bytes or more is decoded on exactly those calls. *)
Lemma handler_decoded (self : PokeballMouseWorking) (data : list Z) :
  5 ≤ len data →
  decoded (snd (notification_handler self data))
  = ((counter self + 1) mod 3 =? 0).
Proof. intros Hl. handler_cases; try reflexivity; lia. Qed.

(** A packet of fewer than five bytes only moves the counter. *)
Lemma handler_short (self : PokeballMouseWorking) (data : list Z) :
  len data < 5 →
  notification_handler self data =
    (set_counter self (counter self + 1),
     if (counter self + 1) mod 3 =? 0 then Ignored else Skipped).
Proof. intros Hl. handler_cases; try reflexivity; lia. Qed.

(** With the sensitivity and a center as [__init__] or a calibration set
    them, no packet of bytes makes the handler raise. *)
Lemma handler_never_raises (self : PokeballMouseWorking) (data : list Z) (e : exn) :
  y_sensitivity self = default_sensitivity →
  0 ≤ y_center self ≤ 255 →
  is_packet data →
  snd (notification_handler self data) ≠ Raised e.
Proof.
  intros Hs Hc Hd. unfold notification_handler. cbn [counter set_counter].
  destruct ((counter self + 1) mod 3 =? 0); [| discriminate]. cbn [negb].
  destruct (Z.leb_spec 5 (len data)) as [Hl | Hl]; [| discriminate].
  unfold len in Hl.
  destruct (lookup_lt_is_Some_2 data 1 ltac:(lia)) as [buttons H1].
  destruct (lookup_lt_is_Some_2 data 3 ltac:(lia)) as [b3 H3].
  destruct (lookup_lt_is_Some_2 data 4 ltac:(lia)) as [y_raw H4].
  unfold getitem. rewrite H1, H3, H4. cbn [bind].
  destruct (get_x_direction _ _) as [x_direction x_move]. cbn [bind].
  assert (Hy : 0 ≤ y_raw ≤ 255).
  { pose proof (proj1 (Forall_forall _ _) Hd y_raw
                  (list_elem_of_lookup_2 _ _ _ H4)). simpl in *. lia. }
  match goal with
  | |- context [ y_move_of ?s y_raw ] =>
      change (y_move_of s y_raw) with (y_move_of self y_raw)
  end.
  rewrite (y_move_of_default self y_raw Hs Hy Hc). cbn [bind].
  destruct (handle_buttons _ _). discriminate.
Qed.

Lemma deliver_counter (pkts : list (list Z)) (self : PokeballMouseWorking) :
  counter (fst (deliver self pkts)) = counter self + len pkts.
Proof.
  revert self. induction pkts as [| data rest IH]; intros self; simpl.
  - unfold len. simpl. lia.
  - pose proof (handler_counter self data) as Hc.
    destruct (notification_handler self data) as [self1 o].
    specialize (IH self1).
    destruct (deliver self1 rest) as [self2 os]. simpl in *.
    unfold len in *. rewrite IH, Hc. simpl length. lia.
Qed.

Lemma deliver_length (pkts : list (list Z)) (self : PokeballMouseWorking) :
  length (snd (deliver self pkts)) = length pkts.
Proof.
  revert self. induction pkts as [| data rest IH]; intros self; simpl.
  - reflexivity.
  - destruct (notification_handler self data) as [self1 o].
    specialize (IH self1).
    destruct (deliver self1 rest) as [self2 os]. simpl in *. lia.
Qed.

(** The outcome of the packet at position [i] (from 0) of a stream. *)
Lemma deliver_nth (pkts : list (list Z)) (self : PokeballMouseWorking)
    (i : nat) (data : list Z) (o : outcome) :
  pkts !! i = Some data →
  snd (deliver self pkts) !! i = Some o →
  eligible o = ((counter self + Z.of_nat i + 1) mod 3 =? 0)
  ∧ (5 ≤ len data →
     decoded o = ((counter self + Z.of_nat i + 1) mod 3 =? 0)).
Proof.
  revert self i. induction pkts as [| d rest IH]; intros self i Hp Ho.
  - discriminate Hp.
  - simpl in Ho.
    pose proof (handler_counter self d) as Hc.
    pose proof (handler_eligible self d) as He.
    pose proof (handler_decoded self d) as Hd.
    destruct (notification_handler self d) as [self1 o1].
    pose proof (IH self1) as IH1.
    destruct (deliver self1 rest) as [self2 os].
    cbn [fst snd] in Hc, He, Hd, IH1, Ho.
    destruct i as [| j]; cbn [lookup list_lookup] in Hp, Ho.
    + injection Hp as <-. injection Ho as <-.
      replace (counter self + Z.of_nat 0 + 1) with (counter self + 1) by lia.
      split; [exact He | exact Hd].
    + specialize (IH1 j Hp Ho). rewrite Hc in IH1.
      replace (counter self + Z.of_nat (S j) + 1)
        with (counter self + 1 + Z.of_nat j + 1) by lia.
      exact IH1.
Qed.

(** C6. From a counter of 0, for every stream of packets, the k-th
    packet gets past the decimation test if and only if k is a multiple
    of 3, and when it has five bytes or more it is decoded if and only
    if k is a multiple of 3; no other packet makes a device call. *)
Theorem decimation_every_third
    (self : PokeballMouseWorking) (pkts : list (list Z))
    (k : nat) (data : list Z) (o : outcome) :
  counter self = 0 →
  (1 ≤ k)%nat →
  pkts !! (k - 1)%nat = Some data →
  snd (deliver self pkts) !! (k - 1)%nat = Some o →
  (eligible o = true ↔ Z.of_nat k mod 3 = 0)
  ∧ (5 ≤ len data → (decoded o = true ↔ Z.of_nat k mod 3 = 0))
  ∧ (Z.of_nat k mod 3 ≠ 0 → o = Skipped ∧ emitted o = []).
Proof.
  intros H0 Hk Hp Ho.
  destruct (deliver_nth pkts self (k - 1) data o Hp Ho) as [He Hd].
  rewrite H0 in He, Hd.
  replace (0 + Z.of_nat (k - 1) + 1) with (Z.of_nat k) in He, Hd by lia.
  split; [| split].
  - rewrite He. apply Z.eqb_eq.
  - intros Hl. rewrite (Hd Hl). apply Z.eqb_eq.
  - intros Hne. apply Z.eqb_neq in Hne. rewrite Hne in He.
    destruct o; try discriminate He. split; reflexivity.
Qed.

(** Across 9 packets only packets 3, 6 and 9 are processed. *)
Lemma decimation_every_third_witness :
  map eligible (snd (deliver init (replicate 9 moving_packet)))
  = [false; false; true; false; false; true; false; false; true]
  ∧ snd (deliver init (replicate 9 moving_packet)) !! 5%nat
    = Some (Processed [write EV_REL REL_X 20; write EV_REL REL_Y 32; syn])
  ∧ (eligible (Processed [write EV_REL REL_X 20; write EV_REL REL_Y 32; syn])
       = true ↔ Z.of_nat 6 mod 3 = 0).
Proof.
  split; [| split].
  - vm_compute. reflexivity.
  - vm_compute. reflexivity.
  - refine (proj1 (decimation_every_third init (replicate 9 moving_packet) 6
                     moving_packet
                     (Processed [write EV_REL REL_X 20;
                                 write EV_REL REL_Y 32; syn]) _ _ _ _)).
    + reflexivity.
    + lia.
    + reflexivity.
    + vm_compute. reflexivity.
Defined.

(** C7. A packet shorter than 5 bytes is never decoded: the call
    returns without an exception ([Skipped] or [Ignored]), makes no
    device call, and changes nothing but the counter. *)
Theorem short_packet_ignored (self : PokeballMouseWorking) (data : list Z) :
  len data < 5 →
  let '(self', o) := notification_handler self data in
  (o = Skipped ∨ o = Ignored)
  ∧ decoded o = false
  ∧ emitted o = []
  ∧ self' = set_counter self (counter self + 1)
  ∧ last_button_state self' = last_button_state self.
Proof.
  intros Hl. rewrite (handler_short self data Hl).
  destruct ((counter self + 1) mod 3 =? 0); repeat split; auto.
Qed.

Lemma short_packet_ignored_witness :
  let '(self', o) := notification_handler (set_counter init 2) short_packet in
  (o = Skipped ∨ o = Ignored)
  ∧ decoded o = false
  ∧ emitted o = []
  ∧ self' = set_counter (set_counter init 2) (counter (set_counter init 2) + 1)
  ∧ last_button_state self' = last_button_state (set_counter init 2).
Proof.
  apply (short_packet_ignored (set_counter init 2) short_packet).
  vm_compute. reflexivity.
Defined.

(** C9. Every delivered packet adds exactly one to the counter, a packet
    shorter than 5 bytes included; after any stream the counter has
    grown by the number of packets delivered, and whether the next
    packet gets past the decimation test depends on that total alone. *)
Theorem counter_counts_every_packet :
  (∀ (self : PokeballMouseWorking) (data : list Z),
     counter (fst (notification_handler self data)) = counter self + 1)
  ∧ (∀ (self : PokeballMouseWorking) (pkts : list (list Z)),
       counter (fst (deliver self pkts)) = counter self + len pkts)
  ∧ (∀ (self : PokeballMouseWorking) (pkts : list (list Z)) (next : list Z),
       eligible (snd (notification_handler (fst (deliver self pkts)) next))
       = ((counter self + len pkts + 1) mod 3 =? 0))
  ∧ map decoded
      (snd (deliver init [short_packet; moving_packet; moving_packet]))
    = [false; false; true]
  ∧ map decoded (snd (deliver init [moving_packet; moving_packet]))
    = [false; false].
Proof.
  split; [| split; [| split; [| split]]].
  - apply handler_counter.
  - intros self pkts. apply deliver_counter.
  - intros self pkts next.
    rewrite handler_eligible, deliver_counter. reflexivity.
  - vm_compute. reflexivity.
  - vm_compute. reflexivity.
Qed.

End Decimation.

(** ** Python primitives: [max], [min], [sum], [sorted] and the median *)

Section Primitives.

Lemma foldl_max_spec (l : list Z) (x : Z) :
  foldl Z.max x l ∈ x :: l ∧ Forall (λ y, y ≤ foldl Z.max x l) (x :: l).
Proof.
  revert x. induction l as [| a l IH]; intros x; simpl.
  - split; [apply list_elem_of_here | repeat constructor; lia].
  - destruct (IH (Z.max x a)) as [Hin Hall]. split.
    + apply elem_of_cons in Hin as [Heq | Hin].
      * rewrite Heq. destruct (Z.max_spec x a) as [[_ ->] | [_ ->]].
        -- apply list_elem_of_further, list_elem_of_here.
        -- apply list_elem_of_here.
      * do 2 apply list_elem_of_further. exact Hin.
    + apply Forall_cons in Hall as [Hm Hall].
      repeat apply Forall_cons_2; [lia | lia | exact Hall].
Qed.

Lemma foldl_min_spec (l : list Z) (x : Z) :
  foldl Z.min x l ∈ x :: l ∧ Forall (λ y, foldl Z.min x l ≤ y) (x :: l).
Proof.
  revert x. induction l as [| a l IH]; intros x; simpl.
  - split; [apply list_elem_of_here | repeat constructor; lia].
  - destruct (IH (Z.min x a)) as [Hin Hall]. split.
    + apply elem_of_cons in Hin as [Heq | Hin].
      * rewrite Heq. destruct (Z.min_spec x a) as [[_ ->] | [_ ->]].
        -- apply list_elem_of_here.
        -- apply list_elem_of_further, list_elem_of_here.
      * do 2 apply list_elem_of_further. exact Hin.
    + apply Forall_cons in Hall as [Hm Hall].
      repeat apply Forall_cons_2; [lia | lia | exact Hall].
Qed.

Lemma max_greatest (l : list Z) :
  l ≠ [] → ∃ m, Py.max l = Ok m ∧ is_greatest m l.
Proof.
  destruct l as [| x l]; [congruence |]. intros _.
  exists (foldl Z.max x l). split; [reflexivity | apply foldl_max_spec].
Qed.

Lemma min_least (l : list Z) :
  l ≠ [] → ∃ m, Py.min l = Ok m ∧ is_least m l.
Proof.
  destruct l as [| x l]; [congruence |]. intros _.
  exists (foldl Z.min x l). split; [reflexivity | apply foldl_min_spec].
Qed.

Lemma foldl_add_acc (l : list Z) (a : Z) :
  foldl Z.add a l = a + foldl Z.add 0 l.
Proof.
  revert a. induction l as [| x l IH]; intros a; simpl.
  - lia.
  - rewrite (IH (a + x)), (IH (0 + x)). lia.
Qed.

Lemma sum_cons (x : Z) (l : list Z) : sum (x :: l) = x + sum l.
Proof. unfold sum. simpl. apply foldl_add_acc. Qed.

Lemma sum_bytes (l : list Z) :
  Forall (λ b, 0 ≤ b < 256) l → 0 ≤ sum l ≤ 255 * len l.
Proof.
  induction 1 as [| x l Hx _ IH].
  - unfold sum, len. simpl. lia.
  - rewrite sum_cons. unfold len in *. simpl length. lia.
Qed.

(** Counting the values of a list that satisfy a decidable property. *)
Lemma filter_all (P : Z → Prop) `{!∀ y, Decision (P y)} (l : list Z) :
  Forall P l → filter P l = l.
Proof.
  induction 1 as [| x l Hx _ IH]; [reflexivity |].
  rewrite filter_cons_True by exact Hx. by rewrite IH.
Qed.

Lemma filter_length_take (P : Z → Prop) `{!∀ y, Decision (P y)}
    (l : list Z) (k : nat) :
  Forall P (take k l) → (k ≤ length l)%nat →
  (k ≤ length (filter P l))%nat.
Proof.
  intros Hall Hk. rewrite <- (take_drop k l), filter_app, length_app.
  rewrite (filter_all P (take k l)) by exact Hall.
  rewrite length_take. lia.
Qed.

Lemma filter_length_drop (P : Z → Prop) `{!∀ y, Decision (P y)}
    (l : list Z) (k : nat) :
  Forall P (drop k l) →
  (length l - k ≤ length (filter P l))%nat.
Proof.
  intros Hall. rewrite <- (take_drop k l) at 2. rewrite filter_app, length_app.
  rewrite (filter_all P (drop k l)) by exact Hall.
  rewrite length_drop. lia.
Qed.

Lemma sorted_lookup_le (s : list Z) (i j : nat) (a b : Z) :
  StronglySorted Z.le s → (i ≤ j)%nat →
  s !! i = Some a → s !! j = Some b → a ≤ b.
Proof.
  intros Hs. revert i j. induction Hs as [| x s Hs IH Hx]; intros i j Hij Ha Hb.
  - discriminate Ha.
  - destruct i as [| i], j as [| j]; simpl in *.
    + assert (a = b) by congruence. lia.
    + injection Ha as <-.
      eapply (proj1 (Forall_forall _ _) Hx), list_elem_of_lookup_2, Hb.
    + lia.
    + apply (IH i j); [lia | assumption | assumption].
Qed.

Lemma sorted_take_le (s : list Z) (i : nat) (a m : Z) :
  StronglySorted Z.le s → s !! i = Some a → a ≤ m →
  Forall (λ y, y ≤ m) (take (S i) s).
Proof.
  intros Hs Ha Hm. apply Forall_lookup. intros j y Hy.
  apply lookup_take_Some in Hy as [Hy Hj].
  pose proof (sorted_lookup_le s j i y a Hs ltac:(lia) Hy Ha). lia.
Qed.

Lemma sorted_drop_ge (s : list Z) (i : nat) (b m : Z) :
  StronglySorted Z.le s → s !! i = Some b → m ≤ b →
  Forall (λ y, m ≤ y) (drop i s).
Proof.
  intros Hs Hb Hm. apply Forall_lookup. intros j y Hy.
  rewrite lookup_drop in Hy.
  pose proof (sorted_lookup_le s i (i + j) b y Hs ltac:(lia) Hb Hy). lia.
Qed.

Lemma sorted_strongly (l : list Z) : StronglySorted Z.le (sorted l).
Proof. apply StronglySorted_merge_sort; apply _. Qed.

Lemma sorted_length (l : list Z) : length (sorted l) = length l.
Proof. unfold sorted. by rewrite merge_sort_Permutation. Qed.

Lemma sorted_filter_length (P : Z → Prop) `{!∀ y, Decision (P y)} (l : list Z) :
  length (filter P (sorted l)) = length (filter P l).
Proof. unfold sorted. by rewrite merge_sort_Permutation. Qed.

(** A value between two entries [i ≤ j] of the sorted data that lie
    around the middle is a median of the data. *)
Lemma between_middle_is_median (l : list Z) (i j : nat) (a b m : Z) :
  sorted l !! i = Some a → sorted l !! j = Some b →
  a ≤ m ≤ b →
  (length l ≤ 2 * S i)%nat → (2 * j ≤ length l)%nat →
  is_median m l.
Proof.
  intros Ha Hb Hm Hi Hj. pose proof (sorted_strongly l) as Hs.
  pose proof (lookup_lt_Some _ _ _ Ha) as Hia.
  rewrite sorted_length in Hia.
  unfold is_median, len. split.
  - rewrite <- (sorted_filter_length (λ y, y ≤ m)).
    pose proof (filter_length_take (λ y, y ≤ m) (sorted l) (S i)
                  (sorted_take_le _ _ _ _ Hs Ha (proj1 Hm))) as H.
    rewrite sorted_length in H. lia.
  - rewrite <- (sorted_filter_length (λ y, m ≤ y)).
    pose proof (filter_length_drop (λ y, m ≤ y) (sorted l) j
                  (sorted_drop_ge _ _ _ _ Hs Hb (proj2 Hm))) as H.
    rewrite sorted_length in H. lia.
Qed.

(** [int(statistics.median(l))] is defined on every non-empty list and
    is a median of it. *)
Lemma int_median_is_median (l : list Z) :
  l ≠ [] →
  ∃ q, statistics_median l = Ok q ∧ is_median (int_Q q) l.
Proof.
  intros Hne. unfold statistics_median.
  pose proof (sorted_length l) as Hlen.
  assert (Hpos : (0 < length l)%nat).
  { destruct l; [congruence | simpl; lia]. }
  destruct (Nat.eqb_spec (length (sorted l)) 0) as [H0 | _]; [lia |].
  pose proof (Nat.div_mod_eq (length l) 2) as Hdm.
  pose proof (Nat.mod_upper_bound (length l) 2 ltac:(lia)) as Hmod.
  rewrite Hlen.
  destruct (Nat.eqb_spec (length l mod 2) 1) as [Hodd | Heven].
  - destruct (lookup_lt_is_Some_2 (sorted l) (length l / 2)) as [m Hm];
      [rewrite Hlen; lia |].
    unfold getitem. rewrite Hm. simpl. exists (inject_Z m).
    split; [reflexivity |].
    assert (Hint : int_Q (inject_Z m) = m).
    { unfold int_Q, inject_Z. simpl. apply Z.quot_1_r. }
    rewrite Hint.
    apply (between_middle_is_median l _ _ m m m Hm Hm); lia.
  - destruct (lookup_lt_is_Some_2 (sorted l) (length l / 2 - 1)) as [a Ha];
      [rewrite Hlen; lia |].
    destruct (lookup_lt_is_Some_2 (sorted l) (length l / 2)) as [b Hb];
      [rewrite Hlen; lia |].
    unfold getitem. rewrite Ha, Hb. simpl. exists ((a + b) # 2).
    split; [reflexivity |].
    pose proof (sorted_lookup_le (sorted l) (length l / 2 - 1) (length l / 2)
                  a b (sorted_strongly l) ltac:(lia) Ha Hb) as Hab.
    assert (Hint : a ≤ int_Q ((a + b) # 2) ≤ b).
    { unfold int_Q. simpl. Z.to_euclidean_division_equations. lia. }
    apply (between_middle_is_median l _ _ a b _ Ha Hb Hint); lia.
Qed.

Lemma filter_none (P : Z → Prop) `{!∀ y, Decision (P y)} (l : list Z) :
  Forall (λ y, ¬ P y) l → filter P l = [].
Proof.
  induction 1 as [| x l Hx _ IH]; [reflexivity |].
  rewrite filter_cons_False by exact Hx. exact IH.
Qed.

(** The entry at index [k] of the sorted data is the value of rank [k]. *)
Lemma sorted_lookup_order_statistic (l : list Z) (k : nat) (v : Z) :
  sorted l !! k = Some v → is_order_statistic k v l.
Proof.
  intros Hv. pose proof (sorted_strongly l) as Hs.
  pose proof (lookup_lt_Some _ _ _ Hv) as Hk.
  unfold is_order_statistic. split.
  - rewrite <- (sorted_filter_length (λ y, y < v)).
    rewrite <- (take_drop k (sorted l)) at 1.
    rewrite filter_app, length_app.
    rewrite (filter_none (λ y, y < v) (drop k (sorted l))).
    + pose proof (length_filter (λ y, y < v) (take k (sorted l))) as Hf.
      rewrite length_take in Hf. cbn [length]. lia.
    + eapply Forall_impl;
        [apply (sorted_drop_ge _ _ _ v Hs Hv); lia | intros y Hy; simpl in *; lia].
  - rewrite <- (sorted_filter_length (λ y, y ≤ v)).
    pose proof (filter_length_take (λ y, y ≤ v) (sorted l) (S k)
                  (sorted_take_le _ _ _ v Hs Hv ltac:(lia)) ltac:(lia)).
    lia.
Qed.

Lemma filter_length_impl (P Q : Z → Prop)
    `{!∀ y, Decision (P y)} `{!∀ y, Decision (Q y)} (l : list Z) :
  (∀ y, P y → Q y) → (length (filter P l) ≤ length (filter Q l))%nat.
Proof.
  intros Himp. induction l as [| x l IH]; [reflexivity |].
  destruct (decide (P x)) as [Hp | Hp].
  - rewrite (filter_cons_True P) by exact Hp.
    rewrite (filter_cons_True Q) by (apply Himp, Hp). simpl. lia.
  - rewrite (filter_cons_False P) by exact Hp.
    destruct (decide (Q x)) as [Hq | Hq].
    + rewrite (filter_cons_True Q) by exact Hq. simpl. lia.
    + rewrite (filter_cons_False Q) by exact Hq. exact IH.
Qed.

(** A rank names one value. *)
Lemma order_statistic_unique (k : nat) (v w : Z) (l : list Z) :
  is_order_statistic k v l → is_order_statistic k w l → v = w.
Proof.
  intros [Hv1 Hv2] [Hw1 Hw2].
  destruct (Z.lt_trichotomy v w) as [Hlt | [Heq | Hgt]]; [| exact Heq |].
  - assert (H : ∀ y, y ≤ v → y < w) by (intros; lia).
    pose proof (filter_length_impl (λ y, y ≤ v) (λ y, y < w) l H). lia.
  - assert (H : ∀ y, y ≤ w → y < v) by (intros; lia).
    pose proof (filter_length_impl (λ y, y ≤ w) (λ y, y < v) l H). lia.
Qed.

(** [int(statistics.median(l))] is the integer median of [l]: for an even
    count, the mean of the two middle values cut toward zero. *)
Lemma int_median_exact (l : list Z) :
  l ≠ [] →
  ∃ q, statistics_median l = Ok q ∧ is_int_median (int_Q q) l.
Proof.
  intros Hne. unfold statistics_median, is_int_median.
  pose proof (sorted_length l) as Hlen.
  assert (Hpos : (0 < length l)%nat).
  { destruct l; [congruence | simpl; lia]. }
  destruct (Nat.eqb_spec (length (sorted l)) 0) as [H0 | _]; [lia |].
  pose proof (Nat.div_mod_eq (length l) 2) as Hdm.
  pose proof (Nat.mod_upper_bound (length l) 2 ltac:(lia)) as Hmod.
  rewrite Hlen.
  destruct (Nat.eqb_spec (length l mod 2) 1) as [Hodd | Heven].
  - destruct (lookup_lt_is_Some_2 (sorted l) (length l / 2)) as [m Hm];
      [rewrite Hlen; lia |].
    unfold getitem. rewrite Hm. cbn [bind]. exists (inject_Z m).
    split; [reflexivity |].
    assert (Hint : int_Q (inject_Z m) = m).
    { unfold int_Q, inject_Z. simpl. apply Z.quot_1_r. }
    rewrite Hint. apply sorted_lookup_order_statistic, Hm.
  - destruct (lookup_lt_is_Some_2 (sorted l) (length l / 2 - 1)) as [a Ha];
      [rewrite Hlen; lia |].
    destruct (lookup_lt_is_Some_2 (sorted l) (length l / 2)) as [b Hb];
      [rewrite Hlen; lia |].
    unfold getitem. rewrite Ha, Hb. cbn [bind]. exists ((a + b) # 2).
    split; [reflexivity |]. exists a, b.
    split; [apply sorted_lookup_order_statistic, Ha |].
    split; [apply sorted_lookup_order_statistic, Hb | reflexivity].
Qed.

End Primitives.

(** ** The calibration tool: statistics of the sample window *)

Section ToolCalibration.
Import Calibrator.

(** On non-empty sample lists [calibrate] computes its statistics
    without an exception, and they are what their names say. *)
Lemma calibrate_statistics (self : PokeballCalibrator) :
  x_values self ≠ [] → y_values self ≠ [] →
  ∃ r, calibrate self = Ok r
       ∧ is_median (x_median r) (x_values self)
       ∧ is_median (y_median r) (y_values self)
       ∧ is_least (x_min r) (x_values self)
       ∧ is_greatest (x_max r) (x_values self)
       ∧ is_least (y_min r) (y_values self)
       ∧ is_greatest (y_max r) (y_values self)
       ∧ x_drift r = x_max r - x_min r
       ∧ y_drift r = y_max r - y_min r
       ∧ recommended_deadzone r = Z.max (x_drift r) (y_drift r) + 5.
Proof.
  intros Hx Hy. unfold calibrate.
  destruct (int_median_is_median _ Hx) as (qx & -> & Hqx).
  destruct (int_median_is_median _ Hy) as (qy & -> & Hqy).
  destruct (min_least _ Hx) as (x0 & -> & Hx0).
  destruct (max_greatest _ Hx) as (x1 & -> & Hx1).
  destruct (min_least _ Hy) as (y0 & -> & Hy0).
  destruct (max_greatest _ Hy) as (y1 & -> & Hy1).
  cbn [bind]. eexists. split; [reflexivity |]. cbn.
  repeat (split; [assumption || reflexivity |]). reflexivity.
Qed.

(** The two centers [calibrate] reports are the integer medians of the
    two sample lists. *)
Lemma calibrate_medians_exact (self : PokeballCalibrator) (r : statistics) :
  calibrate self = Ok r →
  x_values self ≠ [] → y_values self ≠ [] →
  is_int_median (x_median r) (x_values self)
  ∧ is_int_median (y_median r) (y_values self).
Proof.
  intros Hr Hx Hy. unfold calibrate in Hr.
  destruct (int_median_exact _ Hx) as (qx & Hqx & Hmx).
  destruct (int_median_exact _ Hy) as (qy & Hqy & Hmy).
  destruct (min_least _ Hx) as (x0 & Hx0 & _).
  destruct (max_greatest _ Hx) as (x1 & Hx1 & _).
  destruct (min_least _ Hy) as (y0 & Hy0 & _).
  destruct (max_greatest _ Hy) as (y1 & Hy1 & _).
  rewrite Hqx, Hqy, Hx0, Hx1, Hy0, Hy1 in Hr. cbn [bind] in Hr.
  injection Hr as <-. cbn. split; assumption.
Qed.

(** C8. For every non-empty sample window the recommended deadzone is
    [max(drift_x, drift_y) + 5], each drift being the greatest minus the
    least value collected on its own axis. *)
Theorem deadzone_is_max_drift_plus_margin (self : PokeballCalibrator) :
  x_values self ≠ [] → y_values self ≠ [] →
  ∃ r, calibrate self = Ok r
       ∧ is_least (x_min r) (x_values self)
       ∧ is_greatest (x_max r) (x_values self)
       ∧ is_least (y_min r) (y_values self)
       ∧ is_greatest (y_max r) (y_values self)
       ∧ x_drift r = x_max r - x_min r
       ∧ y_drift r = y_max r - y_min r
       ∧ recommended_deadzone r = Z.max (x_drift r) (y_drift r) + 5.
Proof.
  intros Hx Hy.
  destruct (calibrate_statistics self Hx Hy)
    as (r & Hr & _ & _ & Hx0 & Hx1 & Hy0 & Hy1 & Hdx & Hdy & Hdz).
  exists r. repeat (split; [assumption |]). assumption.
Qed.

Lemma deadzone_is_max_drift_plus_margin_witness :
  ∃ r, calibrate example_window = Ok r
       ∧ is_least (x_min r) [7; 7; 7; 7; 7]
       ∧ is_greatest (x_max r) [7; 7; 7; 7; 7]
       ∧ is_least (y_min r) [100; 102; 98; 104; 96]
       ∧ is_greatest (y_max r) [100; 102; 98; 104; 96]
       ∧ x_drift r = x_max r - x_min r
       ∧ y_drift r = y_max r - y_min r
       ∧ recommended_deadzone r = Z.max (x_drift r) (y_drift r) + 5.
Proof.
  apply (deadzone_is_max_drift_plus_margin example_window); discriminate.
Defined.

Example example_window_statistics :
  calibrate example_window =
    Ok {| x_median := 7; y_median := 100;
          x_min := 7; x_max := 7; y_min := 96; y_max := 104;
          x_drift := 0; y_drift := 8; recommended_deadzone := 13 |}.
Proof. vm_compute. reflexivity. Qed.

(** The handler keeps the two sample lists of the same length, so one
    is empty exactly when the other is. *)
Lemma tool_handler_lengths (self self' : PokeballCalibrator) (data : list Z) :
  length (x_values self) = length (y_values self) →
  notification_handler self data = Ok self' →
  length (x_values self') = length (y_values self').
Proof.
  intros Hl. unfold notification_handler.
  destruct ((4 <=? len data) && (sample_count self <? max_samples self)).
  - unfold getitem. destruct (data !! 2%nat); [| discriminate].
    destruct (data !! 3%nat); [| discriminate]. cbn.
    intros [= <-]. cbn. rewrite !length_app, Hl. reflexivity.
  - intros [= <-]. exact Hl.
Qed.

End ToolCalibration.

(** ** The driver's in-session calibration: [calibrate_y_axis] *)

Section DriverCalibration.
Import Driver.

Lemma window_y_cons (data : list Z) (pkts : list (list Z)) :
  window_y (data :: pkts) =
    match (if 5 <=? len data then data !! 4%nat else None) with
    | Some y => y :: window_y pkts
    | None => window_y pkts
    end.
Proof. reflexivity. Qed.

(** [cal_handler] never raises, and what it collects over a stream is
    the window of the stream. *)
Lemma collect_window (pkts : list (list Z)) (ys xs : list Z) :
  ∃ xs', collect (ys, xs) pkts = Ok (ys ++ window_y pkts, xs').
Proof.
  revert ys xs. induction pkts as [| data rest IH]; intros ys xs.
  - exists xs. simpl. by rewrite app_nil_r.
  - rewrite window_y_cons. cbn [collect]. unfold cal_handler.
    destruct (Z.leb_spec 5 (len data)) as [Hl | Hl].
    + unfold len in Hl.
      destruct (lookup_lt_is_Some_2 data 4 ltac:(lia)) as [d4 H4].
      destruct (lookup_lt_is_Some_2 data 3 ltac:(lia)) as [d3 H3].
      unfold getitem. rewrite H4, H3. cbn [bind].
      destruct (IH (ys ++ [d4]) (xs ++ [Z.land d3 15])) as [xs' ->].
      exists xs'. by rewrite <- app_assoc.
    + cbn [bind]. apply IH.
Qed.

Lemma calibrate_y_axis_window (self : PokeballMouseWorking)
    (pkts : list (list Z)) :
  calibrate_y_axis self pkts =
    Ok (match window_y pkts with
        | [] => self
        | _ :: _ =>
            set_y_center self (sum (window_y pkts) / len (window_y pkts))
        end).
Proof.
  unfold calibrate_y_axis.
  destruct (collect_window pkts [] []) as [xs' ->]. cbn [bind app].
  destruct (window_y pkts) as [| y w] eqn:Hw; [reflexivity |].
  unfold floordiv.
  replace (len (y :: w) =? 0) with false
    by (symmetry; apply Z.eqb_neq; unfold len; simpl; lia).
  reflexivity.
Qed.

Lemma window_y_bytes (pkts : list (list Z)) :
  Forall is_packet pkts → Forall (λ b, 0 ≤ b < 256) (window_y pkts).
Proof.
  induction 1 as [| data rest Hd _ IH]; [constructor |].
  rewrite window_y_cons. destruct (5 <=? len data); [| exact IH].
  destruct (data !! 4%nat) as [y |] eqn:Hy; [| exact IH].
  constructor; [| exact IH].
  apply (proj1 (Forall_forall _ _) Hd), list_elem_of_lookup_2 with 4%nat, Hy.
Qed.

(** Calibrating on packets of bytes keeps the center a byte value. *)
Lemma calibrate_center_byte (self self' : PokeballMouseWorking)
    (pkts : list (list Z)) :
  Forall is_packet pkts →
  0 ≤ y_center self ≤ 255 →
  calibrate_y_axis self pkts = Ok self' →
  0 ≤ y_center self' ≤ 255.
Proof.
  intros Hp Hc. rewrite calibrate_y_axis_window.
  pose proof (sum_bytes _ (window_y_bytes pkts Hp)) as Hs.
  destruct (window_y pkts) as [| y w]; intros [= <-]; [exact Hc |].
  cbn [y_center set_y_center].
  assert (Hn : 0 < len (y :: w)) by (unfold len; simpl; lia).
  split.
  - apply Z.div_pos; lia.
  - apply Z.div_le_upper_bound; lia.
Qed.

(** C10. When the calibration window collects no sample,
    [calibrate_y_axis] returns without an exception and leaves the
    object, its Y center included, as it was. *)
Theorem empty_window_keeps_center (self : PokeballMouseWorking)
    (pkts : list (list Z)) :
  window_y pkts = [] →
  calibrate_y_axis self pkts = Ok self.
Proof. intros Hw. rewrite calibrate_y_axis_window, Hw. reflexivity. Qed.

Lemma empty_window_keeps_center_witness :
  calibrate_y_axis (set_y_center init 121) [[0; 0; 0; 7]; []; [0; 0]]
  = Ok (set_y_center init 121).
Proof.
  apply (empty_window_keeps_center (set_y_center init 121)
           [[0; 0; 0; 7]; []; [0; 0]]).
  reflexivity.
Defined.

(** C1, as the code has it. On a non-empty window the calibration tool
    reports as Y center [int(statistics.median(y_values))]: the integer
    median of the collected y values, that is their middle value in
    increasing order for an odd count and, for an even count (the 500
    samples of the tool), the mean of the two middle values cut toward
    zero; it is a median of the window. The driver's own
    [calibrate_y_axis] sets [y_center] to
    [sum(y_samples) // len(y_samples)], the mean of the collected
    y values rounded down. *)
Theorem center_median_in_tool_mean_in_driver
    (cal : Calibrator.PokeballCalibrator)
    (self : PokeballMouseWorking) (pkts : list (list Z)) :
  Calibrator.x_values cal ≠ [] →
  Calibrator.y_values cal ≠ [] →
  window_y pkts ≠ [] →
  (∃ r, Calibrator.calibrate cal = Ok r
        ∧ is_int_median (Calibrator.y_median r) (Calibrator.y_values cal)
        ∧ is_median (Calibrator.y_median r) (Calibrator.y_values cal))
  ∧ (∃ self', calibrate_y_axis self pkts = Ok self'
        ∧ y_center self' = sum (window_y pkts) / len (window_y pkts)
        ∧ y_center self' * len (window_y pkts) ≤ sum (window_y pkts)
          < (y_center self' + 1) * len (window_y pkts)).
Proof.
  intros Hx Hy Hw. split.
  - destruct (calibrate_statistics cal Hx Hy) as (r & Hr & _ & Hm & _).
    destruct (calibrate_medians_exact cal r Hr Hx Hy) as [_ Hexact].
    exists r. split; [exact Hr |]. split; assumption.
  - rewrite calibrate_y_axis_window.
    destruct (window_y pkts) as [| y w] eqn:Ew; [congruence |].
    eexists. split; [reflexivity |]. cbn [y_center set_y_center].
    split; [reflexivity |].
    assert (Hn : 0 < len (y :: w)) by (unfold len; simpl; lia).
    pose proof (Z.div_mod (sum (y :: w)) (len (y :: w)) ltac:(lia)).
    pose proof (Z.mod_pos_bound (sum (y :: w)) (len (y :: w)) Hn).
    nia.
Qed.

(** On the four y samples 100, 103, 96, 104 the tool reports 101, the
    mean 101.5 of the middle values 100 and 103 cut toward zero; the
    driver on the window 0, 0, 3 sets the center 1. *)
Lemma center_median_in_tool_mean_in_driver_witness :
  (∃ r, Calibrator.calibrate paired_window = Ok r
        ∧ is_int_median (Calibrator.y_median r) [100; 103; 96; 104]
        ∧ is_median (Calibrator.y_median r) [100; 103; 96; 104])
  ∧ (∃ self', calibrate_y_axis init skewed_packets = Ok self'
        ∧ y_center self' = 1
        ∧ y_center self' * 3 ≤ 3 < (y_center self' + 1) * 3).
Proof.
  apply (center_median_in_tool_mean_in_driver paired_window init
           skewed_packets); discriminate.
Defined.

(** The value on the paired window, and the two ranks it is the mean
    of. *)
Example paired_window_median :
  Calibrator.y_median <$>
    (match Calibrator.calibrate paired_window with
     | Ok r => Some r
     | Raise _ => None
     end) = Some 101
  ∧ is_order_statistic 1 100 [100; 103; 96; 104]
  ∧ is_order_statistic 2 103 [100; 103; 96; 104]
  ∧ ¬ is_int_median 100 [100; 103; 96; 104].
Proof.
  split; [reflexivity |]. split; [vm_compute; lia |].
  split; [vm_compute; lia |].
  intros (a & b & Ha & Hb & Hm). cbn [length Nat.div Nat.sub] in Ha, Hb.
  change (4 / 2 - 1)%nat with 1%nat in Ha. change (4 / 2)%nat with 2%nat in Hb.
  assert (Ha' : is_order_statistic 1 100 [100; 103; 96; 104])
    by (vm_compute; lia).
  assert (Hb' : is_order_statistic 2 103 [100; 103; 96; 104])
    by (vm_compute; lia).
  pose proof (order_statistic_unique _ _ _ _ Ha Ha').
  pose proof (order_statistic_unique _ _ _ _ Hb Hb').
  subst a b. discriminate Hm.
Qed.

(** C1, as stated, fails on the driver: for the window 0, 0, 3 the
    calibrated center is 1, which is not a median of the window (two of
    the three values lie below it); the median is 0. *)
Lemma driver_center_is_not_median :
  window_y skewed_packets = [0; 0; 3]
  ∧ calibrate_y_axis init skewed_packets = Ok (set_y_center init 1)
  ∧ ¬ is_median 1 [0; 0; 3]
  ∧ bind (statistics_median [0; 0; 3]) (λ q, Ok (int_Q q)) = Ok 0.
Proof.
  split; [reflexivity |]. split; [reflexivity |]. split; [| reflexivity].
  intros [_ H]. vm_compute in H. apply H. reflexivity.
Qed.

End DriverCalibration.

(** ** Reconnection: [connect] and the loop of [run] *)

Section Reconnection.
Import Driver.

Lemma clicks_of_send_movement (x_move y_move : Z) :
  clicks_of (send_movement x_move y_move) = [].
Proof.
  unfold send_movement.
  destruct (x_move =? 0), (y_move =? 0); reflexivity.
Qed.

(** The click events of a processed packet are those of the button
    block on byte 1 of the packet and the stored mask. *)
Lemma handler_clicks (self self1 : PokeballMouseWorking) (data : list Z)
    (calls : list dev_call) :
  notification_handler self data = (self1, Processed calls) →
  ∃ buttons, data !! 1%nat = Some buttons
    ∧ clicks_of calls =
        (if buttons =? last_button_state self then []
         else [(PRIMARY, bit buttons 0); (SECONDARY, bit buttons 1)])
    ∧ last_button_state self1 = buttons.
Proof.
  unfold notification_handler. cbn [counter set_counter].
  destruct ((counter self + 1) mod 3 =? 0); [| discriminate].
  destruct (5 <=? len data); [| discriminate]. cbn [negb].
  unfold getitem.
  destruct (data !! 1%nat) as [buttons |]; [| discriminate].
  destruct (data !! 3%nat) as [b3 |]; [| discriminate]. cbn [bind].
  destruct (get_x_direction _ _) as [x_direction x_move].
  destruct (data !! 4%nat) as [y_raw |]; [| discriminate]. cbn [bind].
  destruct (y_move_of _ y_raw) as [y_move | e]; [| discriminate]. cbn [bind].
  cbn [last_button_state set_counter].
  pose proof (handle_buttons_clicks buttons (last_button_state self)) as Hc.
  pose proof (handle_buttons_last buttons (last_button_state self)) as Hl.
  destruct (handle_buttons buttons (last_button_state self)) as [clicks last].
  cbn [fst snd] in Hc, Hl. intros [= <- <-].
  exists buttons. split; [reflexivity |]. cbn [last_button_state set_last_button_state]. split.
  - unfold clicks_of in *. rewrite omap_app.
    fold (clicks_of (send_movement x_move y_move)).
    rewrite clicks_of_send_movement. exact Hc.
  - exact Hl.
Qed.


(** A lost link followed by the reconnection of [run] assigns only
    [self.client]. *)
Lemma reconnect_sets_only_client (self : PokeballMouseWorking) :
  ∃ c, run_poll (link_lost self) = set_client self c.
Proof.
  unfold link_lost, run_poll.
  destruct (client self) as [c |] eqn:Hc.
  - cbn. eexists. reflexivity.
  - rewrite Hc. exists None. destruct self. cbn in Hc. subst. reflexivity.
Qed.




End Reconnection.

(** ** The handler: what it writes and what it keeps *)

Section HandlerEffects.
Import Driver.

Local Ltac handler_open :=
  unfold notification_handler; cbn [counter set_counter];
  destruct (_ mod 3 =? 0); cbn [negb];
  [ destruct (5 <=? len _);
    [ match goal with
      | |- context [ match ?r with Ok _ => _ | Raise _ => _ end ] =>
          destruct r as [[[?buttons ?x_move] ?y_move] | ?e]
      end
    | ]
  | ].

(** A call assigns [self.counter] and, when it processes the packet,
    [self.last_button_state]; nothing else. *)
Lemma handler_frame (self : PokeballMouseWorking) (data : list Z) :
  ∃ b, fst (notification_handler self data)
       = set_last_button_state (set_counter self (counter self + 1)) b.
Proof.
  handler_open.
  - destruct (handle_buttons _ _) as [clicks last]. exists last. reflexivity.
  - exists (last_button_state self). reflexivity.
  - exists (last_button_state self). reflexivity.
  - exists (last_button_state self). reflexivity.
Qed.

(** Outside a processed packet the stored mask stays. *)
Lemma handler_unprocessed_mask (self : PokeballMouseWorking) (data : list Z) :
  (∀ calls, snd (notification_handler self data) ≠ Processed calls) →
  last_button_state (fst (notification_handler self data))
  = last_button_state self.
Proof.
  handler_open; intros H; try reflexivity.
  destruct (handle_buttons _ _) as [clicks last]. cbn in H.
  exfalso. eapply H. reflexivity.
Qed.

(** X3. Whatever the packet, the device calls of one handler call are
    well formed: a relative movement is never written with the value 0,
    a key is written with 0 or 1 only, each code goes with its event
    type, there are at most six calls, and a batch that is not empty
    ends with the synchronisation that makes the kernel deliver it. *)
Theorem device_calls_well_formed (self : PokeballMouseWorking) (data : list Z) :
  Forall call_ok (emitted (snd (notification_handler self data)))
  ∧ (emitted (snd (notification_handler self data)) ≠ [] →
     last (emitted (snd (notification_handler self data))) = Some syn)
  ∧ (length (emitted (snd (notification_handler self data))) ≤ 6)%nat.
Proof.
  handler_open;
    try (cbn; split; [constructor | split; [congruence | lia]]).
  unfold handle_buttons, send_movement.
  destruct (Z.eqb_spec x_move 0), (Z.eqb_spec y_move 0),
    (buttons =? last_button_state _),
    (Z.land buttons 1 =? 0), (Z.land buttons 2 =? 0);
    cbn; (split; [| split; [try congruence; reflexivity | lia]]);
    repeat match goal with |- Forall _ _ => constructor end; cbn; auto.
Qed.

Lemma presses_send_movement (view : bool * bool) (x_move y_move : Z) :
  presses view (send_movement x_move y_move) = view.
Proof.
  unfold send_movement.
  destruct (x_move =? 0), (y_move =? 0); reflexivity.
Qed.

Lemma presses_handle_buttons (view : bool * bool) (cur prev : Z) :
  presses view (fst (handle_buttons cur prev))
  = if cur =? prev then view else shown cur.
Proof.
  unfold handle_buttons, shown. rewrite <- land_1_bit, <- land_2_bit.
  destruct (cur =? prev); [reflexivity |]. cbn.
  destruct (Z.land cur 1 =? 0), (Z.land cur 2 =? 0); reflexivity.
Qed.

(** One call keeps the virtual buttons in step with the stored mask. *)
Lemma handler_presses (self : PokeballMouseWorking) (data : list Z) :
  presses (shown (last_button_state self))
    (emitted (snd (notification_handler self data)))
  = shown (last_button_state (fst (notification_handler self data))).
Proof.
  handler_open; try reflexivity.
  cbn [last_button_state set_counter].
  pose proof (presses_handle_buttons (shown (last_button_state self))
                buttons (last_button_state self)) as Hp.
  pose proof (handle_buttons_last buttons (last_button_state self)) as Hl.
  destruct (handle_buttons buttons (last_button_state self)) as [clicks last].
  cbn [fst snd emitted last_button_state set_last_button_state] in *.
  unfold presses in *. rewrite foldl_app.
  fold (presses (shown (last_button_state self)) (send_movement x_move y_move)).
  rewrite presses_send_movement. fold (presses (shown (last_button_state self)) clicks).
  unfold presses. rewrite Hp, Hl.
  destruct (Z.eqb_spec buttons (last_button_state self)) as [-> | _];
    reflexivity.
Qed.

Lemma reconnect_mask (self : PokeballMouseWorking) :
  last_button_state (run_poll (link_lost self)) = last_button_state self.
Proof. destruct (reconnect_sets_only_client self) as [c ->]. reflexivity. Qed.

(** X5. Over a whole session, reconnections included, the virtual
    buttons follow the stored mask: started in step with it (as after
    [__init__], mask 0 and both buttons up), the device calls of all the
    notifications leave the left button at bit 0 and the right button at
    bit 1 of the mask stored at the end. *)
Theorem virtual_buttons_follow_mask (evs : list event)
    (self : PokeballMouseWorking) :
  presses (shown (last_button_state self))
    (concat (map emitted (snd (run_loop self evs))))
  = shown (last_button_state (fst (run_loop self evs))).
Proof.
  revert self. induction evs as [| ev rest IH]; intros self.
  - reflexivity.
  - destruct ev as [data |]; cbn [run_loop].
    + pose proof (handler_presses self data) as Hp.
      destruct (notification_handler self data) as [self1 o].
      specialize (IH self1).
      destruct (run_loop self1 rest) as [self2 os].
      cbn [fst snd map concat] in *.
      unfold presses in *. rewrite foldl_app, Hp. exact IH.
    + rewrite <- (reconnect_mask self). apply IH.
Qed.

(** X6. A processed packet leaves the virtual buttons as byte 1 of the
    packet shows them, when they were in step with the stored mask. *)
Theorem processed_packet_sets_buttons (self self1 : PokeballMouseWorking)
    (data : list Z) (calls : list dev_call) :
  notification_handler self data = (self1, Processed calls) →
  ∃ mask, data !! 1%nat = Some mask
    ∧ last_button_state self1 = mask
    ∧ presses (shown (last_button_state self)) calls = shown mask.
Proof.
  intros H. destruct (handler_clicks _ _ _ _ H) as (mask & Hm & _ & Hl).
  exists mask. split; [exact Hm |]. split; [exact Hl |].
  pose proof (handler_presses self data) as Hp. rewrite H in Hp.
  cbn [fst snd emitted] in Hp. rewrite Hp, Hl. reflexivity.
Qed.

Lemma processed_packet_sets_buttons_witness :
  ∃ mask, moving_packet !! 1%nat = Some mask
    ∧ last_button_state (set_last_button_state (set_counter init 3) 1) = mask
    ∧ presses (shown (last_button_state (set_counter init 2)))
        [write EV_REL REL_X 20; write EV_REL REL_Y 32; syn;
         write EV_KEY BTN_LEFT 1; write EV_KEY BTN_RIGHT 0; syn]
      = shown mask.
Proof.
  apply (processed_packet_sets_buttons (set_counter init 2)
           (set_last_button_state (set_counter init 3) 1) moving_packet).
  vm_compute. reflexivity.
Defined.

(** X7. Edge detection over a stream: while every packet of five bytes
    or more carries the stored mask, no key event is written, however
    many packets are processed. *)
Theorem held_mask_writes_no_key (pkts : list (list Z))
    (self : PokeballMouseWorking) :
  Forall (λ data : list Z,
            5 ≤ len data → data !! 1%nat = Some (last_button_state self)) pkts →
  Forall (λ o, clicks_of (emitted o) = []) (snd (deliver self pkts))
  ∧ last_button_state (fst (deliver self pkts)) = last_button_state self.
Proof.
  revert self. induction pkts as [| data rest IH]; intros self Hall.
  - split; [constructor | reflexivity].
  - apply Forall_cons in Hall as [Hd Hrest]. cbn [deliver].
    assert (Hstep :
      clicks_of (emitted (snd (notification_handler self data))) = []
      ∧ last_button_state (fst (notification_handler self data))
        = last_button_state self).
    { destruct (notification_handler self data) as [self1 o] eqn:Hh.
      destruct o as [| | calls | e]; cbn [fst snd emitted];
        try (split; [reflexivity |];
             pose proof (handler_unprocessed_mask self data) as Hu;
             rewrite Hh in Hu; apply Hu; intros; discriminate).
      destruct (handler_clicks _ _ _ _ Hh) as (mask & Hm & Hc & Hl).
      assert (Hlen : 5 ≤ len data).
      { pose proof (handler_short self data) as Hs.
        destruct (Z.le_gt_cases 5 (len data)) as [? | Hlt]; [assumption |].
        rewrite Hh in Hs. specialize (Hs ltac:(lia)).
        destruct ((counter self + 1) mod 3 =? 0); discriminate Hs. }
      rewrite (Hd Hlen) in Hm. injection Hm as <-.
      rewrite Z.eqb_refl in Hc. split; [exact Hc | exact Hl]. }
    destruct Hstep as [Hc Hl].
    destruct (notification_handler self data) as [self1 o].
    cbn [fst snd] in Hc, Hl.
    assert (Hrest1 : Forall (λ data : list Z, 5 ≤ len data →
                  data !! 1%nat = Some (last_button_state self1)) rest).
    { rewrite Hl. exact Hrest. }
    destruct (IH self1 Hrest1) as [IHa IHb].
    destruct (deliver self1 rest) as [self2 os]. cbn [fst snd] in *.
    split; [constructor; assumption | congruence].
Qed.

Lemma held_mask_writes_no_key_witness :
  Forall (λ o, clicks_of (emitted o) = [])
    (snd (deliver holding [held_packet; short_packet; held_packet;
                           held_packet; held_packet; held_packet]))
  ∧ last_button_state
      (fst (deliver holding [held_packet; short_packet; held_packet;
                             held_packet; held_packet; held_packet]))
    = last_button_state holding.
Proof.
  apply (held_mask_writes_no_key
           [held_packet; short_packet; held_packet;
            held_packet; held_packet; held_packet] holding).
  repeat constructor; intros H; solve [reflexivity | vm_compute in H; congruence].
Defined.

End HandlerEffects.

(** ** A session: [run] from the connection to the loop *)

Section Session.
Import Driver.

Lemma handler_settings (self : PokeballMouseWorking) (data : list Z) :
  y_center (fst (notification_handler self data)) = y_center self
  ∧ y_deadzone (fst (notification_handler self data)) = y_deadzone self
  ∧ x_speed (fst (notification_handler self data)) = x_speed self
  ∧ y_sensitivity (fst (notification_handler self data)) = y_sensitivity self
  ∧ client (fst (notification_handler self data)) = client self.
Proof.
  destruct (handler_frame self data) as [b ->]. repeat split.
Qed.

Lemma reconnect_settings (self : PokeballMouseWorking) :
  y_center (run_poll (link_lost self)) = y_center self
  ∧ y_deadzone (run_poll (link_lost self)) = y_deadzone self
  ∧ x_speed (run_poll (link_lost self)) = x_speed self
  ∧ y_sensitivity (run_poll (link_lost self)) = y_sensitivity self
  ∧ counter (run_poll (link_lost self)) = counter self.
Proof.
  destruct (reconnect_sets_only_client self) as [c ->]. repeat split.
Qed.

Lemma notifications_cons_packet (data : list Z) (evs : list event) :
  notifications (Notification data :: evs) = data :: notifications evs.
Proof. reflexivity. Qed.

Lemma notifications_cons_reconnection (evs : list event) :
  notifications (Reconnection :: evs) = notifications evs.
Proof. reflexivity. Qed.

(** X8. The loop of [run] assigns the calibration and the speeds
    nowhere: after any events the center, the deadzone, the X speed and
    the sensitivity are those the loop started with. The frame counter
    has grown by the number of notifications, reconnections not
    resetting it, and each notification has one outcome. *)
Theorem loop_keeps_settings (evs : list event) (self : PokeballMouseWorking) :
  y_center (fst (run_loop self evs)) = y_center self
  ∧ y_deadzone (fst (run_loop self evs)) = y_deadzone self
  ∧ x_speed (fst (run_loop self evs)) = x_speed self
  ∧ y_sensitivity (fst (run_loop self evs)) = y_sensitivity self
  ∧ counter (fst (run_loop self evs)) = counter self + len (notifications evs)
  ∧ length (snd (run_loop self evs)) = length (notifications evs).
Proof.
  revert self. induction evs as [| ev rest IH]; intros self.
  - cbn. unfold len. cbn. repeat split; lia.
  - destruct ev as [data |]; cbn [run_loop].
    + rewrite notifications_cons_packet.
      pose proof (handler_settings self data) as (H1 & H2 & H3 & H4 & _).
      pose proof (handler_counter self data) as Hc.
      destruct (notification_handler self data) as [self1 o].
      specialize (IH self1). destruct (run_loop self1 rest) as [self2 os].
      cbn [fst snd] in *. destruct IH as (I1 & I2 & I3 & I4 & I5 & I6).
      unfold len in *. cbn [length].
      repeat split; try congruence; lia.
    + rewrite notifications_cons_reconnection.
      pose proof (reconnect_settings self) as (H1 & H2 & H3 & H4 & H5).
      destruct (IH (run_poll (link_lost self))) as (I1 & I2 & I3 & I4 & I5 & I6).
      repeat split; try congruence; lia.
Qed.

Lemma loop_never_raises (evs : list event) (self : PokeballMouseWorking) :
  settled self →
  Forall is_packet (notifications evs) →
  Forall (λ o, ∀ e, o ≠ Raised e) (snd (run_loop self evs)).
Proof.
  revert self. induction evs as [| ev rest IH]; intros self [Hs Hc] Hp.
  - constructor.
  - destruct ev as [data |]; cbn [run_loop].
    + rewrite notifications_cons_packet in Hp.
      apply Forall_cons in Hp as [Hd Hp].
      pose proof (handler_settings self data) as (H1 & _ & _ & H4 & _).
      pose proof (λ e, handler_never_raises self data e Hs Hc Hd) as Hn.
      destruct (notification_handler self data) as [self1 o].
      cbn [fst snd] in *.
      assert (Hs1 : settled self1) by (split; congruence).
      specialize (IH self1 Hs1 Hp).
      destruct (run_loop self1 rest) as [self2 os].
      constructor; assumption.
    + rewrite notifications_cons_reconnection in Hp.
      pose proof (reconnect_settings self) as (H1 & _ & _ & H4 & _).
      apply IH; [split; congruence | exact Hp].
Qed.

(** X1. A whole session never raises on packets of bytes: from
    [__init__], [run] connects, calibrates on any window of byte
    packets and then handles any notifications of byte packets, with
    any reconnections in between, without an exception; the center it
    handles them with is a byte value, and the counter ends at the
    number of notifications. *)
Theorem session_never_raises (cal_pkts : list (list Z)) (evs : list event) :
  Forall is_packet cal_pkts →
  Forall is_packet (notifications evs) →
  ∃ self' os,
    run init cal_pkts evs = Ok (self', os)
    ∧ Forall (λ o, ∀ e, o ≠ Raised e) os
    ∧ 0 ≤ y_center self' ≤ 255
    ∧ counter self' = len (notifications evs).
Proof.
  intros Hcal Hev. unfold run.
  pose proof (calibrate_center_byte (connect init)) as Hbyte.
  rewrite calibrate_y_axis_window in *. cbn [bind].
  set (self0 := match window_y cal_pkts with
                | [] => connect init
                | _ :: _ => set_y_center (connect init)
                              (sum (window_y cal_pkts) / len (window_y cal_pkts))
                end) in *.
  assert (Hc0 : 0 ≤ y_center self0 ≤ 255).
  { apply (Hbyte self0 cal_pkts Hcal); [cbn; lia |].
    apply calibrate_y_axis_window. }
  assert (Hs0 : y_sensitivity self0 = default_sensitivity).
  { unfold self0. destruct (window_y cal_pkts); reflexivity. }
  assert (Hn0 : counter self0 = 0).
  { unfold self0. destruct (window_y cal_pkts); reflexivity. }
  pose proof (loop_never_raises evs self0 (conj Hs0 Hc0) Hev) as Hnr.
  pose proof (loop_keeps_settings evs self0) as (H1 & _ & _ & _ & H5 & _).
  destruct (run_loop self0 evs) as [self' os]. cbn [fst snd] in *.
  exists self', os. split; [reflexivity |]. split; [exact Hnr |].
  split; [rewrite H1; exact Hc0 | lia].
Qed.

Lemma session_never_raises_witness :
  ∃ self' os,
    run init skewed_packets
      [Notification moving_packet; Notification short_packet;
       Reconnection; Notification moving_packet] = Ok (self', os)
    ∧ Forall (λ o, ∀ e, o ≠ Raised e) os
    ∧ 0 ≤ y_center self' ≤ 255
    ∧ counter self'
      = len (notifications
               [Notification moving_packet; Notification short_packet;
                Reconnection; Notification moving_packet]).
Proof.
  apply (session_never_raises skewed_packets
           [Notification moving_packet; Notification short_packet;
            Reconnection; Notification moving_packet]).
  - unfold is_packet. repeat constructor; lia.
  - unfold is_packet. repeat constructor; lia.
Defined.

End Session.

(** ** The handler: what it reads *)

Section HandlerInputs.
Import Driver.

(** X2. Of a packet of five bytes or more the handler reads byte 1, the
    low nibble of byte 3 and byte 4, and nothing else: two such packets
    that agree there are handled alike, whatever their other bytes,
    the high nibble of byte 3 and their lengths. *)
Theorem handler_reads_three_fields (self : PokeballMouseWorking)
    (d1 d2 : list Z) (b1 b2 : Z) :
  5 ≤ len d1 → 5 ≤ len d2 →
  d1 !! 1%nat = d2 !! 1%nat →
  d1 !! 3%nat = Some b1 → d2 !! 3%nat = Some b2 →
  Z.land b1 0x0F = Z.land b2 0x0F →
  d1 !! 4%nat = d2 !! 4%nat →
  notification_handler self d1 = notification_handler self d2.
Proof.
  intros L1 L2 H1 H31 H32 Hn H4. unfold notification_handler.
  apply Z.leb_le in L1, L2. rewrite L1, L2.
  unfold getitem. rewrite H1, H31, H32, H4.
  destruct (d2 !! 1%nat) as [buttons |]; [| reflexivity]. cbn [bind].
  rewrite Hn. reflexivity.
Qed.

Lemma handler_reads_three_fields_witness :
  notification_handler (set_counter init 2) [0; 1; 0; 0x08; 200]
  = notification_handler (set_counter init 2) [77; 1; 99; 0xA8; 200; 13; 14].
Proof.
  apply (handler_reads_three_fields (set_counter init 2)
           [0; 1; 0; 0x08; 200] [77; 1; 99; 0xA8; 200; 13; 14] 0x08 0xA8);
    solve [reflexivity | vm_compute; congruence].
Defined.

Lemma truncated_scaled_quot (offset : Z) :
  truncated_scaled offset = Z.quot (offset * 2) 5.
Proof. reflexivity. Qed.

Lemma truncated_scaled_zero (offset : Z) :
  truncated_scaled offset = 0 ↔ -2 ≤ offset ≤ 2.
Proof.
  rewrite truncated_scaled_quot. Z.to_euclidean_division_equations. lia.
Qed.

(** X4. When the driver is silent. With the settings of a session and an
    X speed that is not 0, a processed packet of bytes makes no device
    call at all exactly when its nibble is a centre nibble (4..7), its
    y value is inside the deadzone or within 2 of the center, and its
    button byte is the stored mask. *)
Theorem silent_exactly_at_rest (self self1 : PokeballMouseWorking)
    (data : list Z) (calls : list dev_call) :
  y_sensitivity self = default_sensitivity →
  0 ≤ y_center self ≤ 255 →
  x_speed self ≠ 0 →
  is_packet data →
  notification_handler self data = (self1, Processed calls) →
  ∃ buttons b3 y_raw,
    data !! 1%nat = Some buttons ∧ data !! 3%nat = Some b3
    ∧ data !! 4%nat = Some y_raw
    ∧ (calls = [] ↔
         4 ≤ Z.land b3 0x0F ≤ 7
         ∧ (Z.abs (y_raw - y_center self) < y_deadzone self
            ∨ Z.abs (y_raw - y_center self) ≤ 2)
         ∧ buttons = last_button_state self).
Proof.
  intros Hs Hc Hx Hd. unfold notification_handler. cbn [counter set_counter].
  destruct ((counter self + 1) mod 3 =? 0); [| discriminate]. cbn [negb].
  destruct (5 <=? len data); [| discriminate]. unfold getitem.
  destruct (data !! 1%nat) as [buttons |] eqn:H1; [| discriminate].
  destruct (data !! 3%nat) as [b3 |] eqn:H3; [| discriminate]. cbn [bind].
  destruct (get_x_direction _ _) as [x_direction x_move] eqn:Hg.
  destruct (data !! 4%nat) as [y_raw |] eqn:H4; [| discriminate]. cbn [bind].
  assert (Hx0 : x_move = 0 ↔ 4 ≤ Z.land b3 0x0F ≤ 7).
  { pose proof (low_nibble_range b3) as Hn.
    rewrite (get_x_direction_total _ _ Hn) in Hg. cbn [x_speed set_counter] in Hg.
    destruct (Z.leb_spec (Z.land b3 15) 3);
      [| destruct (Z.leb_spec (Z.land b3 15) 7)];
      injection Hg as _ <-; lia. }
  assert (Hy : 0 ≤ y_raw ≤ 255).
  { pose proof (proj1 (Forall_forall _ _) Hd y_raw
                  (list_elem_of_lookup_2 _ _ _ H4)). simpl in *. lia. }
  change (y_move_of (set_counter self (counter self + 1)) y_raw)
    with (y_move_of self y_raw).
  rewrite (y_move_of_default self y_raw Hs Hy Hc). cbn [bind].
  set (y_move := if Z.abs (y_raw - y_center self) <? y_deadzone self then 0
                 else truncated_scaled (y_raw - y_center self)).
  assert (Hy0 : y_move = 0 ↔
            Z.abs (y_raw - y_center self) < y_deadzone self
            ∨ Z.abs (y_raw - y_center self) ≤ 2).
  { unfold y_move. destruct (Z.ltb_spec (Z.abs (y_raw - y_center self))
                               (y_deadzone self)) as [Hlt | Hge].
    - split; [intros _; left; exact Hlt | reflexivity].
    - rewrite truncated_scaled_zero. lia. }
  clearbody y_move. cbn [last_button_state set_counter].
  unfold handle_buttons, send_movement.
  destruct (Z.eqb_spec buttons (last_button_state self)) as [Hb | Hb],
    (Z.eqb_spec x_move 0) as [Hxm | Hxm],
    (Z.eqb_spec y_move 0) as [Hym | Hym];
    cbn; intros [= _ <-]; exists buttons, b3, y_raw;
    (split; [reflexivity |]); (split; [reflexivity |]);
    (split; [reflexivity |]);
    (split; [intros Hnil; try discriminate Hnil; tauto
            | intros (Hr & Hz & He); try reflexivity; exfalso; tauto]).
Qed.

Lemma silent_exactly_at_rest_witness :
  ∃ buttons b3 y_raw,
    idle_packet !! 1%nat = Some buttons ∧ idle_packet !! 3%nat = Some b3
    ∧ idle_packet !! 4%nat = Some y_raw
    ∧ (@nil dev_call = [] ↔
         4 ≤ Z.land b3 0x0F ≤ 7
         ∧ (Z.abs (y_raw - y_center (set_counter init 2))
              < y_deadzone (set_counter init 2)
            ∨ Z.abs (y_raw - y_center (set_counter init 2)) ≤ 2)
         ∧ buttons = last_button_state (set_counter init 2)).
Proof.
  apply (silent_exactly_at_rest (set_counter init 2) (set_counter init 3)
           idle_packet []).
  - reflexivity.
  - cbn. lia.
  - discriminate.
  - unfold is_packet, idle_packet. repeat constructor; lia.
  - vm_compute. reflexivity.
Defined.

End HandlerInputs.

(** ** Y axis: shape of the movement *)

Section YShape.
Import Driver.

Lemma truncated_scaled_mono (a b : Z) :
  a ≤ b → truncated_scaled a ≤ truncated_scaled b.
Proof.
  intros H. rewrite !truncated_scaled_quot.
  Z.to_euclidean_division_equations. lia.
Qed.

Lemma truncated_scaled_opp (a : Z) :
  truncated_scaled (- a) = - truncated_scaled a.
Proof.
  rewrite !truncated_scaled_quot.
  replace (- a * 2) with (- (a * 2)) by lia. apply Z.quot_opp_l. lia.
Qed.

Lemma truncated_scaled_bounds (a : Z) :
  Z.abs (truncated_scaled a) ≤ Z.abs a
  ∧ (0 ≤ a → 0 ≤ truncated_scaled a)
  ∧ (a ≤ 0 → truncated_scaled a ≤ 0).
Proof.
  rewrite truncated_scaled_quot.
  Z.to_euclidean_division_equations. lia.
Qed.

(** X9. With the settings of a session the Y movement of a byte never
    opposes the stick and never exceeds it: it has the sign of the
    offset from the center or is 0, its size is at most that of the
    offset and at most 102, and a larger raw value never gives a
    smaller movement. *)
Theorem y_move_follows_offset (self : PokeballMouseWorking) (y1 y2 : Z) :
  y_sensitivity self = default_sensitivity →
  0 ≤ y_center self ≤ 255 →
  0 ≤ y1 ≤ 255 → 0 ≤ y2 ≤ 255 → y1 ≤ y2 →
  ∃ m1 m2,
    y_move_of self y1 = Ok m1 ∧ y_move_of self y2 = Ok m2
    ∧ m1 ≤ m2
    ∧ Z.abs m1 ≤ Z.abs (y1 - y_center self) ∧ Z.abs m1 ≤ 102
    ∧ (y_center self ≤ y1 → 0 ≤ m1) ∧ (y1 ≤ y_center self → m1 ≤ 0).
Proof.
  intros Hs Hc H1 H2 Hle.
  rewrite (y_move_of_default self y1 Hs H1 Hc),
          (y_move_of_default self y2 Hs H2 Hc).
  eexists _, _. split; [reflexivity |]. split; [reflexivity |].
  pose proof (truncated_scaled_bounds (y1 - y_center self)) as (B1 & B2 & B3).
  pose proof (truncated_scaled_bounds (y2 - y_center self)) as (C1 & C2 & C3).
  pose proof (truncated_scaled_mono _ _
                (proj1 (Z.sub_le_mono_r y1 y2 (y_center self)) Hle)) as Hm.
  assert (B4 : Z.abs (truncated_scaled (y1 - y_center self)) ≤ 102).
  { rewrite truncated_scaled_quot in *.
    Z.to_euclidean_division_equations. lia. }
  destruct (Z.ltb_spec (Z.abs (y1 - y_center self)) (y_deadzone self)),
    (Z.ltb_spec (Z.abs (y2 - y_center self)) (y_deadzone self));
    repeat split; lia.
Qed.

Lemma y_move_follows_offset_witness :
  ∃ m1 m2,
    y_move_of init 90 = Ok m1 ∧ y_move_of init 140 = Ok m2
    ∧ m1 ≤ m2
    ∧ Z.abs m1 ≤ Z.abs (90 - y_center init) ∧ Z.abs m1 ≤ 102
    ∧ (y_center init ≤ 90 → 0 ≤ m1) ∧ (90 ≤ y_center init → m1 ≤ 0).
Proof.
  apply (y_move_follows_offset init 90 140);
    solve [reflexivity | cbn; lia | lia].
Defined.

(** X10. Up and down are symmetric: for two byte values at the same
    distance on either side of the center, the movements are opposite
    numbers (the cut toward zero treats both directions alike). *)
Theorem y_move_symmetric (self : PokeballMouseWorking) (d : Z) :
  y_sensitivity self = default_sensitivity →
  0 ≤ y_center self ≤ 255 →
  0 ≤ y_center self - d ≤ 255 →
  0 ≤ y_center self + d ≤ 255 →
  ∃ m, y_move_of self (y_center self + d) = Ok m
       ∧ y_move_of self (y_center self - d) = Ok (- m).
Proof.
  intros Hs Hc Hlo Hhi.
  rewrite (y_move_of_default self _ Hs Hhi Hc),
          (y_move_of_default self _ Hs Hlo Hc).
  eexists. split; [reflexivity |]. f_equal.
  replace (y_center self + d - y_center self) with d by lia.
  replace (y_center self - d - y_center self) with (- d) by lia.
  rewrite Z.abs_opp, truncated_scaled_opp.
  destruct (Z.abs d <? y_deadzone self); reflexivity.
Qed.

Lemma y_move_symmetric_witness :
  ∃ m, y_move_of init (y_center init + 28) = Ok m
       ∧ y_move_of init (y_center init - 28) = Ok (- m).
Proof.
  apply (y_move_symmetric init 28); solve [reflexivity | cbn; lia].
Defined.

End YShape.

(** ** The driver's calibration: where the center can lie *)

Section DriverCenter.
Import Driver.

Lemma sum_between (l : list Z) (lo hi : Z) :
  Forall (λ y, lo ≤ y ≤ hi) l → lo * len l ≤ sum l ≤ hi * len l.
Proof.
  induction 1 as [| x l Hx _ IH].
  - unfold sum, len. simpl. lia.
  - rewrite sum_cons. unfold len in *. simpl length. lia.
Qed.

Lemma sum_Permutation (l1 l2 : list Z) : l1 ≡ₚ l2 → sum l1 = sum l2.
Proof.
  induction 1 as [| x l1 l2 _ IH | x y l | l1 l2 l3 _ IH1 _ IH2].
  - reflexivity.
  - rewrite !sum_cons, IH. reflexivity.
  - rewrite !sum_cons. lia.
  - congruence.
Qed.

Lemma window_y_Permutation (p1 p2 : list (list Z)) :
  p1 ≡ₚ p2 → window_y p1 ≡ₚ window_y p2.
Proof. intros H. unfold window_y. by rewrite H. Qed.

Lemma window_y_filter (pkts : list (list Z)) :
  window_y (filter (λ data : list Z, 5 ≤ len data) pkts) = window_y pkts.
Proof.
  induction pkts as [| data rest IH]; [reflexivity |].
  rewrite window_y_cons.
  destruct (Z.leb_spec 5 (len data)) as [Hl | Hl].
  - rewrite filter_cons_True by exact Hl. rewrite window_y_cons.
    apply Z.leb_le in Hl. rewrite Hl, IH. reflexivity.
  - rewrite filter_cons_False by lia. exact IH.
Qed.

Lemma calibrate_y_axis_same_window (self : PokeballMouseWorking)
    (p1 p2 : list (list Z)) :
  window_y p1 ≡ₚ window_y p2 →
  calibrate_y_axis self p1 = calibrate_y_axis self p2.
Proof.
  intros H. rewrite !calibrate_y_axis_window.
  pose proof (sum_Permutation _ _ H) as Hs.
  pose proof (Permutation_length H) as Hl.
  destruct (window_y p1) as [| a w1], (window_y p2) as [| b w2];
    try discriminate Hl; [reflexivity |].
  unfold len. rewrite Hs, Hl. reflexivity.
Qed.

(** X11. The center a calibration sets lies among the samples: on a
    window that is not empty, [calibrate_y_axis] returns without an
    exception and the new center is between any two bounds of the
    collected y values; a window of one repeated reading calibrates to
    that reading, and nothing but the center is assigned. *)
Theorem calibrated_center_within_samples (self : PokeballMouseWorking)
    (pkts : list (list Z)) (lo hi : Z) :
  window_y pkts ≠ [] →
  Forall (λ y, lo ≤ y ≤ hi) (window_y pkts) →
  ∃ c, calibrate_y_axis self pkts = Ok (set_y_center self c) ∧ lo ≤ c ≤ hi.
Proof.
  intros Hne Hall. rewrite calibrate_y_axis_window.
  pose proof (sum_between _ _ _ Hall) as Hs.
  destruct (window_y pkts) as [| y w]; [congruence |].
  eexists. split; [reflexivity |].
  assert (Hn : 0 < len (y :: w)) by (unfold len; simpl; lia).
  split.
  - apply Z.div_le_lower_bound; lia.
  - apply Z.div_le_upper_bound; lia.
Qed.

Lemma calibrated_center_within_samples_witness :
  ∃ c, calibrate_y_axis init [held_packet; short_packet; idle_packet]
       = Ok (set_y_center init c) ∧ 118 ≤ c ≤ 118.
Proof.
  apply (calibrated_center_within_samples init
           [held_packet; short_packet; idle_packet] 118 118).
  - discriminate.
  - repeat constructor; lia.
Defined.

(** X12. The calibration depends on the samples only, not on the order
    the packets arrive in nor on the packets shorter than five bytes
    between them. *)
Theorem calibration_ignores_order_and_short_packets
    (self : PokeballMouseWorking) (p1 p2 : list (list Z)) :
  filter (λ data : list Z, 5 ≤ len data) p1
    ≡ₚ filter (λ data : list Z, 5 ≤ len data) p2 →
  calibrate_y_axis self p1 = calibrate_y_axis self p2.
Proof.
  intros H. apply calibrate_y_axis_same_window.
  rewrite <- (window_y_filter p1), <- (window_y_filter p2).
  apply window_y_Permutation, H.
Qed.

Lemma calibration_ignores_order_and_short_packets_witness :
  calibrate_y_axis init [moving_packet; short_packet; idle_packet]
  = calibrate_y_axis init [idle_packet; moving_packet; []].
Proof.
  apply (calibration_ignores_order_and_short_packets init
           [moving_packet; short_packet; idle_packet]
           [idle_packet; moving_packet; []]).
  vm_compute. apply perm_swap.
Defined.

End DriverCenter.

(** ** The calibration tool: collecting the window *)

Section ToolCollection.
Import Calibrator.

Lemma samples_cons (data : list Z) (pkts : list (list Z)) :
  (4 ≤ len data →
   ∃ x y, data !! 2%nat = Some x ∧ data !! 3%nat = Some y
          ∧ samples_x (data :: pkts) = x :: samples_x pkts
          ∧ samples_y (data :: pkts) = y :: samples_y pkts)
  ∧ (len data < 4 →
     samples_x (data :: pkts) = samples_x pkts
     ∧ samples_y (data :: pkts) = samples_y pkts).
Proof.
  unfold samples_x, samples_y. cbn [omap list_omap]. split; intros Hl.
  - unfold len in Hl.
    destruct (lookup_lt_is_Some_2 data 2 ltac:(lia)) as [x Hx].
    destruct (lookup_lt_is_Some_2 data 3 ltac:(lia)) as [y Hy].
    exists x, y. apply Z.leb_le in Hl. fold (len data) in Hl.
    rewrite Hl, Hx, Hy. repeat split.
  - apply Z.leb_gt in Hl. rewrite Hl. split; reflexivity.
Qed.

Lemma samples_lengths (pkts : list (list Z)) :
  length (samples_x pkts) = length (samples_y pkts).
Proof.
  induction pkts as [| data rest IH]; [reflexivity |].
  destruct (samples_cons data rest) as [Hlong Hshort].
  destruct (Z.le_gt_cases 4 (len data)) as [Hl | Hl].
  - destruct (Hlong Hl) as (x & y & _ & _ & -> & ->). simpl. lia.
  - destruct (Hshort Hl) as [-> ->]. exact IH.
Qed.

(** What a stream leaves in the object: the samples of its first
    packets of four bytes or more, as many as the budget still allows. *)
Lemma feed_spec (pkts : list (list Z)) (self : PokeballCalibrator) :
  ∃ self', feed self pkts = Ok self'
    ∧ x_values self' =
        x_values self
        ++ take (Z.to_nat (max_samples self - sample_count self)) (samples_x pkts)
    ∧ y_values self' =
        y_values self
        ++ take (Z.to_nat (max_samples self - sample_count self)) (samples_y pkts)
    ∧ sample_count self' =
        sample_count self
        + Z.of_nat (Nat.min (Z.to_nat (max_samples self - sample_count self))
                      (length (samples_x pkts)))
    ∧ max_samples self' = max_samples self.
Proof.
  revert self. induction pkts as [| data rest IH]; intros self.
  - exists self. cbn. rewrite !take_nil, !app_nil_r, Nat.min_0_r.
    repeat split; lia.
  - cbn [feed]. unfold notification_handler.
    destruct (samples_cons data rest) as [Hlong Hshort].
    destruct (Z.leb_spec 4 (len data)) as [Hl | Hl]; cbn [andb].
    + destruct (Hlong Hl) as (x & y & Hx & Hy & -> & ->).
      destruct (Z.ltb_spec (sample_count self) (max_samples self)) as [Hc | Hc].
      * unfold getitem. rewrite Hx, Hy. cbn [bind].
        destruct (IH {| x_values := x_values self ++ [x];
                        y_values := y_values self ++ [y];
                        sample_count := sample_count self + 1;
                        max_samples := max_samples self |})
          as (self' & -> & H1 & H2 & H3 & H4).
        cbn [x_values y_values sample_count max_samples] in *.
        exists self'. split; [reflexivity |].
        replace (Z.to_nat (max_samples self - sample_count self))
          with (S (Z.to_nat (max_samples self - (sample_count self + 1))))
          by lia.
        cbn [take length Nat.min].
        rewrite H1, H2, H3, H4, <- !app_assoc. repeat split. lia.
      * cbn [bind].
        destruct (IH self) as (self' & -> & H1 & H2 & H3 & H4).
        exists self'. split; [reflexivity |].
        replace (Z.to_nat (max_samples self - sample_count self)) with 0%nat
          in * by lia.
        cbn [take Nat.min] in *. repeat split; assumption.
    + destruct (Hshort Hl) as [-> ->]. cbn [bind]. apply IH.
Qed.

(** X13. The tool's handler never raises, and a stream leaves in the
    object the samples of its first packets of four bytes or more, in
    arrival order, as many as the budget [max_samples] still allows:
    shorter packets and the packets after the budget is used up are
    dropped, and the count grows by the number of samples stored. *)
Theorem feed_collects_first_samples (self : PokeballCalibrator)
    (pkts : list (list Z)) :
  ∃ self', feed self pkts = Ok self'
    ∧ x_values self' =
        x_values self
        ++ take (Z.to_nat (max_samples self - sample_count self)) (samples_x pkts)
    ∧ y_values self' =
        y_values self
        ++ take (Z.to_nat (max_samples self - sample_count self)) (samples_y pkts)
    ∧ sample_count self' - sample_count self
      = len (x_values self') - len (x_values self)
    ∧ max_samples self' = max_samples self.
Proof.
  destruct (feed_spec pkts self) as (self' & Hf & H1 & H2 & H3 & H4).
  exists self'. repeat (split; [assumption |]). split; [| assumption].
  unfold len. rewrite H1, H3, length_app, length_take. lia.
Qed.

Lemma feed_app (p1 p2 : list (list Z)) (self : PokeballCalibrator) :
  feed self (p1 ++ p2) = bind (feed self p1) (λ self1, feed self1 p2).
Proof.
  revert self. induction p1 as [| data rest IH]; intros self; [reflexivity |].
  cbn [feed app]. destruct (notification_handler self data) as [self1 | e];
    cbn [bind]; [apply IH | reflexivity].
Qed.

(** Once the budget is used up the handler leaves the object alone. *)
Lemma feed_collected (pkts : list (list Z)) (self : PokeballCalibrator) :
  collected self = true → feed self pkts = Ok self.
Proof.
  unfold collected. intros Hc. apply negb_true_iff in Hc.
  induction pkts as [| data rest IH]; [reflexivity |].
  cbn [feed]. unfold notification_handler.
  rewrite Hc, andb_false_r. cbn [bind]. exact IH.
Qed.

(** X14. A full window always calibrates. From [__init__], once a stream
    has brought 500 packets of four bytes or more, the waiting loop of
    [calibrate] ends, the object holds the samples of the first 500 of
    them, whatever arrives later changes nothing, and the statistics
    are computed without an exception. *)
Theorem full_window_calibrates (pkts more : list (list Z)) :
  (500 ≤ length (samples_x pkts))%nat →
  ∃ self r,
    feed init pkts = Ok self
    ∧ feed init (pkts ++ more) = Ok self
    ∧ collected self = true
    ∧ x_values self = take 500 (samples_x pkts)
    ∧ y_values self = take 500 (samples_y pkts)
    ∧ calibrate self = Ok r.
Proof.
  intros Hn.
  destruct (feed_spec pkts init) as (self & Hf & H1 & H2 & H3 & H4).
  cbn [x_values y_values sample_count max_samples init app] in *.
  change (Z.to_nat (500 - 0)) with 500%nat in *.
  assert (Hcol : collected self = true).
  { unfold collected. apply negb_true_iff, Z.ltb_ge. lia. }
  assert (Hx : x_values self ≠ []).
  { intros E. apply (f_equal length) in E.
    rewrite H1, length_take in E. cbn [length] in E. lia. }
  assert (Hy : y_values self ≠ []).
  { intros E. apply (f_equal length) in E.
    rewrite H2, length_take, <- samples_lengths in E. cbn [length] in E. lia. }
  destruct (calibrate_statistics self Hx Hy) as (r & Hr & _).
  exists self, r. split; [exact Hf |]. split.
  - rewrite feed_app, Hf. cbn [bind]. apply feed_collected, Hcol.
  - repeat (split; [assumption |]). exact Hr.
Qed.

Lemma full_window_calibrates_witness :
  ∃ self r,
    feed init (replicate 500 [0; 0; 7; 100]) = Ok self
    ∧ feed init (replicate 500 [0; 0; 7; 100] ++ [[0; 0; 9; 250]]) = Ok self
    ∧ collected self = true
    ∧ x_values self = take 500 (samples_x (replicate 500 [0; 0; 7; 100]))
    ∧ y_values self = take 500 (samples_y (replicate 500 [0; 0; 7; 100]))
    ∧ calibrate self = Ok r.
Proof.
  apply (full_window_calibrates (replicate 500 [0; 0; 7; 100])
           [[0; 0; 9; 250]]).
  apply Nat.leb_le. vm_compute. reflexivity.
Defined.

End ToolCollection.

(** ** The calibration tool: shape of the statistics *)

Section ToolStatistics.
Import Calibrator.

Lemma median_between (m lo hi : Z) (l : list Z) :
  l ≠ [] → is_median m l → is_least lo l → is_greatest hi l → lo ≤ m ≤ hi.
Proof.
  intros Hne [Hle Hge] [_ Hlo] [_ Hhi].
  assert (Hpos : 0 < len l).
  { unfold len. destruct l; [congruence | simpl; lia]. }
  split.
  - destruct (filter (λ y, y ≤ m) l) as [| y f] eqn:Ef.
    + unfold len in Hle. simpl in Hle. unfold len in Hpos. lia.
    + assert (Hy : y ∈ filter (λ y, y ≤ m) l) by (rewrite Ef; left).
      apply list_elem_of_filter in Hy as [Hym Hyl].
      pose proof (proj1 (Forall_forall _ _) Hlo y Hyl). simpl in *. lia.
  - destruct (filter (λ y, m ≤ y) l) as [| y f] eqn:Ef.
    + unfold len in Hge. simpl in Hge. unfold len in Hpos. lia.
    + assert (Hy : y ∈ filter (λ y, m ≤ y) l) by (rewrite Ef; left).
      apply list_elem_of_filter in Hy as [Hym Hyl].
      pose proof (proj1 (Forall_forall _ _) Hhi y Hyl). simpl in *. lia.
Qed.

Lemma least_le_greatest (lo hi : Z) (l : list Z) :
  is_least lo l → is_greatest hi l → lo ≤ hi.
Proof.
  intros [Hin _] [_ Hhi]. apply (proj1 (Forall_forall _ _) Hhi lo Hin).
Qed.

Lemma least_within (lo a b : Z) (l : list Z) :
  is_least lo l → Forall (λ y, a ≤ y ≤ b) l → a ≤ lo ≤ b.
Proof. intros [Hin _] Hall. apply (proj1 (Forall_forall _ _) Hall lo Hin). Qed.

Lemma greatest_within (hi a b : Z) (l : list Z) :
  is_greatest hi l → Forall (λ y, a ≤ y ≤ b) l → a ≤ hi ≤ b.
Proof. intros [Hin _] Hall. apply (proj1 (Forall_forall _ _) Hall hi Hin). Qed.

(** X15. The statistics hang together. On a window that is not empty
    each median lies between the least and the greatest value of its
    axis, the drifts are not negative and the recommended deadzone is
    at least 5 and covers both drifts; when all samples lie in a range
    [a, b] so do the medians, and the deadzone is at most [b - a + 5]
    (260 for bytes). *)
Theorem statistics_are_consistent (self : PokeballCalibrator) (a b : Z) :
  x_values self ≠ [] → y_values self ≠ [] →
  Forall (λ v, a ≤ v ≤ b) (x_values self) →
  Forall (λ v, a ≤ v ≤ b) (y_values self) →
  ∃ r, calibrate self = Ok r
    ∧ x_min r ≤ x_median r ≤ x_max r
    ∧ y_min r ≤ y_median r ≤ y_max r
    ∧ 0 ≤ x_drift r ∧ 0 ≤ y_drift r
    ∧ x_drift r + 5 ≤ recommended_deadzone r
    ∧ y_drift r + 5 ≤ recommended_deadzone r
    ∧ 5 ≤ recommended_deadzone r ≤ b - a + 5
    ∧ a ≤ x_median r ≤ b ∧ a ≤ y_median r ≤ b.
Proof.
  intros Hx Hy Hax Hay.
  destruct (calibrate_statistics self Hx Hy)
    as (r & Hr & Hmx & Hmy & Hx0 & Hx1 & Hy0 & Hy1 & Hdx & Hdy & Hdz).
  pose proof (median_between _ _ _ _ Hx Hmx Hx0 Hx1).
  pose proof (median_between _ _ _ _ Hy Hmy Hy0 Hy1).
  pose proof (least_within _ _ _ _ Hx0 Hax).
  pose proof (least_within _ _ _ _ Hy0 Hay).
  pose proof (greatest_within _ _ _ _ Hx1 Hax).
  pose proof (greatest_within _ _ _ _ Hy1 Hay).
  exists r. split; [exact Hr |]. rewrite Hdz, Hdx, Hdy. repeat split; lia.
Qed.

Lemma statistics_are_consistent_witness :
  ∃ r, calibrate example_window = Ok r
    ∧ x_min r ≤ x_median r ≤ x_max r
    ∧ y_min r ≤ y_median r ≤ y_max r
    ∧ 0 ≤ x_drift r ∧ 0 ≤ y_drift r
    ∧ x_drift r + 5 ≤ recommended_deadzone r
    ∧ y_drift r + 5 ≤ recommended_deadzone r
    ∧ 5 ≤ recommended_deadzone r ≤ 255 - 0 + 5
    ∧ 0 ≤ x_median r ≤ 255 ∧ 0 ≤ y_median r ≤ 255.
Proof.
  apply (statistics_are_consistent example_window 0 255);
    solve [discriminate | repeat constructor; lia].
Defined.

(** X16. A joystick that does not move at all: when every x sample is
    one value and every y sample is one value, the medians are these
    values, both drifts are 0 and the recommended deadzone is the bare
    margin 5. *)
Theorem still_window_statistics (self : PokeballCalibrator) (cx cy : Z) :
  x_values self ≠ [] → y_values self ≠ [] →
  Forall (λ v, v = cx) (x_values self) →
  Forall (λ v, v = cy) (y_values self) →
  calibrate self =
    Ok {| x_median := cx; y_median := cy;
          x_min := cx; x_max := cx; y_min := cy; y_max := cy;
          x_drift := 0; y_drift := 0; recommended_deadzone := 5 |}.
Proof.
  intros Hx Hy Hax Hay.
  destruct (calibrate_statistics self Hx Hy)
    as (r & Hr & Hmx & Hmy & Hx0 & Hx1 & Hy0 & Hy1 & Hdx & Hdy & Hdz).
  pose proof (median_between _ _ _ _ Hx Hmx Hx0 Hx1).
  pose proof (median_between _ _ _ _ Hy Hmy Hy0 Hy1).
  assert (Hr1 : ∀ (v c : Z) (l : list Z),
            v ∈ l → Forall (λ v, v = c) l → v = c).
  { intros v c l Hin Hall. apply (proj1 (Forall_forall _ _) Hall v Hin). }
  pose proof (Hr1 _ _ _ (proj1 Hx0) Hax).
  pose proof (Hr1 _ _ _ (proj1 Hx1) Hax).
  pose proof (Hr1 _ _ _ (proj1 Hy0) Hay).
  pose proof (Hr1 _ _ _ (proj1 Hy1) Hay).
  rewrite Hr. f_equal. destruct r. cbn in *. f_equal; lia.
Qed.

Lemma still_window_statistics_witness :
  calibrate {| x_values := [7; 7; 7; 7]; y_values := [118; 118; 118; 118];
               sample_count := 4; max_samples := 4 |} =
    Ok {| x_median := 7; y_median := 118;
          x_min := 7; x_max := 7; y_min := 118; y_max := 118;
          x_drift := 0; y_drift := 0; recommended_deadzone := 5 |}.
Proof.
  apply (still_window_statistics
           {| x_values := [7; 7; 7; 7]; y_values := [118; 118; 118; 118];
              sample_count := 4; max_samples := 4 |} 7 118);
    solve [discriminate | repeat constructor].
Defined.

Lemma median_empty : statistics_median [] = Raise StatisticsError.
Proof. reflexivity. Qed.

(** X17. The only way [calibrate] fails on its statistics is an empty
    sample list: it raises [StatisticsError] (from
    [statistics.median]) exactly when the x or the y list is empty, and
    returns statistics otherwise; no other exception leaves the
    computation. *)
Theorem calibrate_fails_only_on_empty (self : PokeballCalibrator) :
  (calibrate self = Raise StatisticsError
   ↔ x_values self = [] ∨ y_values self = [])
  ∧ (∀ e, calibrate self = Raise e → e = StatisticsError).
Proof.
  assert (Hcases :
    (x_values self = [] ∨ y_values self = []) ∧
      calibrate self = Raise StatisticsError
    ∨ (x_values self ≠ [] ∧ y_values self ≠ []) ∧
      ∃ r, calibrate self = Ok r).
  { destruct (x_values self) as [| x xs] eqn:Ex.
    - left. split; [left; reflexivity |].
      unfold calibrate. rewrite Ex, median_empty. reflexivity.
    - destruct (y_values self) as [| y ys] eqn:Ey.
      + left. split; [right; reflexivity |].
        unfold calibrate. rewrite Ex, Ey, median_empty.
        destruct (int_median_is_median (x :: xs) ltac:(discriminate))
          as (q & -> & _). reflexivity.
      + right. split; [split; discriminate |].
        destruct (calibrate_statistics self) as (r & Hr & _);
          [rewrite Ex; discriminate | rewrite Ey; discriminate |].
        exists r. exact Hr. }
  destruct Hcases as [[Hem Hr] | [[Hx Hy] [r Hr]]]; rewrite Hr.
  - split; [tauto |]. intros e [= <-]. reflexivity.
  - split; [| discriminate]. split; [discriminate | tauto].
Qed.

Lemma sorted_Permutation (l1 l2 : list Z) : l1 ≡ₚ l2 → sorted l1 = sorted l2.
Proof.
  intros H. apply (StronglySorted_unique Z.le); try apply sorted_strongly.
  unfold sorted. by rewrite !merge_sort_Permutation.
Qed.

Lemma median_Permutation (l1 l2 : list Z) :
  l1 ≡ₚ l2 → statistics_median l1 = statistics_median l2.
Proof.
  intros H. unfold statistics_median. rewrite (sorted_Permutation _ _ H).
  reflexivity.
Qed.

Lemma greatest_unique (m1 m2 : Z) (l1 l2 : list Z) :
  l1 ≡ₚ l2 → is_greatest m1 l1 → is_greatest m2 l2 → m1 = m2.
Proof.
  intros H [Hin1 Hall1] [Hin2 Hall2].
  rewrite H in Hin1. rewrite <- H in Hin2.
  pose proof (proj1 (Forall_forall _ _) Hall1 m2 Hin2).
  pose proof (proj1 (Forall_forall _ _) Hall2 m1 Hin1). simpl in *. lia.
Qed.

Lemma least_unique (m1 m2 : Z) (l1 l2 : list Z) :
  l1 ≡ₚ l2 → is_least m1 l1 → is_least m2 l2 → m1 = m2.
Proof.
  intros H [Hin1 Hall1] [Hin2 Hall2].
  rewrite H in Hin1. rewrite <- H in Hin2.
  pose proof (proj1 (Forall_forall _ _) Hall1 m2 Hin2).
  pose proof (proj1 (Forall_forall _ _) Hall2 m1 Hin1). simpl in *. lia.
Qed.

Lemma max_Permutation (l1 l2 : list Z) : l1 ≡ₚ l2 → Py.max l1 = Py.max l2.
Proof.
  intros H. destruct l1 as [| a l1].
  - apply Permutation_nil_l in H. subst. reflexivity.
  - destruct l2 as [| b l2]; [apply Permutation_nil_r in H; discriminate |].
    destruct (max_greatest (a :: l1)) as (m1 & -> & G1); [discriminate |].
    destruct (max_greatest (b :: l2)) as (m2 & -> & G2); [discriminate |].
    f_equal. eapply greatest_unique; eassumption.
Qed.

Lemma min_Permutation (l1 l2 : list Z) : l1 ≡ₚ l2 → Py.min l1 = Py.min l2.
Proof.
  intros H. destruct l1 as [| a l1].
  - apply Permutation_nil_l in H. subst. reflexivity.
  - destruct l2 as [| b l2]; [apply Permutation_nil_r in H; discriminate |].
    destruct (min_least (a :: l1)) as (m1 & -> & G1); [discriminate |].
    destruct (min_least (b :: l2)) as (m2 & -> & G2); [discriminate |].
    f_equal. eapply least_unique; eassumption.
Qed.

(** X18. The statistics depend on which samples were collected, not on
    the order they arrived in: two objects whose x lists and whose
    y lists are rearrangements of each other calibrate alike. *)
Theorem calibrate_ignores_order (s1 s2 : PokeballCalibrator) :
  x_values s1 ≡ₚ x_values s2 →
  y_values s1 ≡ₚ y_values s2 →
  calibrate s1 = calibrate s2.
Proof.
  intros Hx Hy. unfold calibrate.
  rewrite (median_Permutation _ _ Hx), (median_Permutation _ _ Hy),
    (min_Permutation _ _ Hx), (max_Permutation _ _ Hx),
    (min_Permutation _ _ Hy), (max_Permutation _ _ Hy).
  reflexivity.
Qed.

Lemma calibrate_ignores_order_witness :
  calibrate example_window
  = calibrate {| x_values := [7; 7; 7; 7; 7];
                 y_values := [96; 98; 100; 102; 104];
                 sample_count := 0; max_samples := 9 |}.
Proof.
  apply (calibrate_ignores_order example_window
           {| x_values := [7; 7; 7; 7; 7];
              y_values := [96; 98; 100; 102; 104];
              sample_count := 0; max_samples := 9 |}).
  - reflexivity.
  - cbn [y_values example_window].
    apply (Permutation_trans (l' := [100; 98; 102; 104; 96]));
      [apply perm_skip, perm_swap |].
    apply (Permutation_trans (l' := [98; 100; 102; 104; 96]));
      [apply perm_swap |].
    apply (Permutation_trans (l' := [98; 100; 102; 96; 104]));
      [do 3 apply perm_skip; apply perm_swap |].
    apply (Permutation_trans (l' := [98; 100; 96; 102; 104]));
      [do 2 apply perm_skip; apply perm_swap |].
    apply (Permutation_trans (l' := [98; 96; 100; 102; 104]));
      [apply perm_skip, perm_swap |].
    apply perm_swap.
Defined.

End ToolStatistics.

(** ** The dashboard: baseline, byte table and interpretations *)

Section DashboardProperties.
Import Dashboard.

(** X19. Over any stream of packets, with no display in between, the
    baseline is set once: it is the baseline the object had, or else
    the first packet of the stream, and no later packet replaces it;
    the current packet is the last one received, every packet is
    counted, and the packet displayed before is not touched. *)
Theorem baseline_is_set_once (pkts : list (list Z)) (self : InteractiveAnalyzer) :
  baseline_data (receive self pkts)
    = match baseline_data self with
      | Some b => Some b
      | None => head pkts
      end
  ∧ current_data (receive self pkts)
    = match last pkts with
      | Some data => Some data
      | None => current_data self
      end
  ∧ packet_count (receive self pkts) = packet_count self + len pkts
  ∧ last_data (receive self pkts) = last_data self.
Proof.
  revert self. induction pkts as [| data rest IH]; intros self.
  - cbn. unfold len. cbn. destruct (baseline_data self); repeat split; lia.
  - unfold receive in *. cbn [foldl].
    destruct (IH (notification_handler self data)) as (H1 & H2 & H3 & H4).
    rewrite H1, H2, H3, H4. cbn [notification_handler baseline_data
      current_data packet_count last_data head].
    unfold len. cbn [length]. repeat split.
    + destruct (baseline_data self); reflexivity.
    + destruct rest as [| d rest]; [reflexivity |].
      change (last (data :: d :: rest)) with (last (d :: rest)).
      destruct (last (d :: rest)) eqn:E; [reflexivity |].
      apply last_None in E. discriminate E.
    + lia.
Qed.

Lemma nibble_join_table :
  forallb (λ a, forallb (λ b, Z.lor (Z.shiftl a 4) b =? a * 16 + b)
                  (seqZ 0 16)) (seqZ 0 16) = true.
Proof. vm_compute. reflexivity. Qed.

Lemma nibble_join (a b : Z) :
  0 ≤ a < 16 → 0 ≤ b < 16 → Z.lor (Z.shiftl a 4) b = a * 16 + b.
Proof.
  intros Ha Hb.
  pose proof (proj1 (forallb_forall _ _) nibble_join_table a) as H.
  assert (Hia : In a (seqZ 0 16)) by (apply list_elem_of_In, elem_of_seqZ; lia).
  assert (Hib : In b (seqZ 0 16)) by (apply list_elem_of_In, elem_of_seqZ; lia).
  apply Z.eqb_eq. exact (proj1 (forallb_forall _ _) (H Hia) b Hib).
Qed.

Lemma low_nibble_mod (c : Z) : Z.land c 0x0F = c mod 16.
Proof. change 0x0F with (Z.ones 4). rewrite Z.land_ones by lia. reflexivity. Qed.

Lemma high_nibble_div (c : Z) :
  0 ≤ c < 256 → Z.land (Z.shiftr c 4) 0x0F = c / 16.
Proof.
  intros Hc. rewrite low_nibble_mod, Z.shiftr_div_pow2 by lia.
  change (2 ^ 4) with 16. apply Z.mod_small.
  split; [apply Z.div_pos; lia | apply Z.div_lt_upper_bound; lia].
Qed.

(** X20. The first X theory joins two nibbles across the byte border:
    whenever the interpretation block succeeds on a packet whose byte 3
    is a byte value, its combined value is 16 times the low nibble of
    byte 2 plus the high nibble of byte 3, a number from 0 to 255; the
    other two theories are bytes 2 and 3 as they are. *)
Theorem first_theory_joins_nibbles (current : list Z)
    (baseline : option (list Z)) (i : interpretation) (c2 c3 : Z) :
  interpret current baseline = Ok i →
  current !! 2%nat = Some c2 → current !! 3%nat = Some c3 →
  0 ≤ c3 < 256 →
  x_nibble i = (c2 mod 16) * 16 + c3 / 16
  ∧ 0 ≤ x_nibble i ≤ 255
  ∧ x_byte2 i = c2 ∧ x_byte3 i = c3.
Proof.
  intros Hi H2 H3 Hc. unfold interpret, getitem in Hi. rewrite H2, H3 in Hi.
  cbn [bind] in Hi.
  repeat match type of Hi with
         | bind ?r _ = _ => destruct r; cbn [bind] in Hi; [| discriminate Hi]
         end.
  injection Hi as <-. cbn.
  rewrite low_nibble_mod, (high_nibble_div c3 Hc).
  pose proof (Z.mod_pos_bound c2 16 eq_refl) as Hm.
  assert (Hd : 0 ≤ c3 / 16 < 16).
  { split; [apply Z.div_pos; lia | apply Z.div_lt_upper_bound; lia]. }
  rewrite (nibble_join _ _ Hm Hd). repeat split; lia.
Qed.

Lemma first_theory_joins_nibbles_witness :
  x_nibble {| x_nibble := 0xB7; bl_x_nibble := 0; x_byte2 := 0xAB;
              bl_x_byte2 := 0; x_byte3 := 0x7C; bl_x_byte3 := 0;
              y_val := 118; bl_y := 0; y_diff := 118; y_indicator := Down;
              button_a := false; button_b := true |}
    = (0xAB mod 16) * 16 + 0x7C / 16
  ∧ 0 ≤ 0xB7 ≤ 255 ∧ 0xAB = 0xAB ∧ 0x7C = 0x7C.
Proof.
  apply (first_theory_joins_nibbles [0; 1; 0xAB; 0x7C; 118] None);
    solve [reflexivity | lia].
Defined.

Lemma display_long_current (self : InteractiveAnalyzer) (current : list Z) :
  current_data self = Some current → 5 ≤ len current →
  display_data self =
    match interpret current (baseline_data self) with
    | Ok i =>
        ({| last_data := Some current; current_data := Some current;
            baseline_data := baseline_data self;
            packet_count := packet_count self |},
         Ok (Bytes (imap (row_of (last_data self))
                      (take (Z.to_nat (Z.min (len current) 10)) current))
               (Some i)))
    | Raise e => (self, Raise e)
    end.
Proof.
  intros Hc Hl. unfold display_data. rewrite Hc.
  destruct current as [| c0 rest]; [unfold len in Hl; simpl in Hl; lia |].
  cbn [truthy negb from_option id].
  replace (5 <=? Z.min (len (c0 :: rest)) 10) with true
    by (symmetry; apply Z.leb_le; lia).
  reflexivity.
Qed.

(** X21. A short first packet breaks the display. With a current packet
    of five bytes or more, [display_data] raises [IndexError], leaving
    the object as it was, when the baseline packet has between one and
    four bytes; with no baseline, an empty one or one of five bytes or
    more it shows the byte table and the interpretations and records
    the current packet as the one displayed. *)
Theorem short_baseline_breaks_display (self : InteractiveAnalyzer)
    (current : list Z) :
  current_data self = Some current → 5 ≤ len current →
  ((∃ b, baseline_data self = Some b ∧ 0 < len b < 5) →
   display_data self = (self, Raise IndexError))
  ∧ ((∀ b, baseline_data self = Some b → len b = 0 ∨ 5 ≤ len b) →
     ∃ rows i, snd (display_data self) = Ok (Bytes rows (Some i))
       ∧ last_data (fst (display_data self)) = Some current).
Proof.
  intros Hc Hl. rewrite (display_long_current self current Hc Hl).
  destruct current as [| c0 [| c1 [| c2 [| c3 [| c4 rest]]]]];
    try (unfold len in Hl; simpl in Hl; lia).
  split.
  - intros (b & -> & Hb).
    destruct b as [| b0 [| b1 [| b2 [| b3 [| b4 b']]]]];
      try (unfold len in Hb; simpl in Hb; lia); reflexivity.
  - intros Hb. destruct (baseline_data self) as [b |].
    + destruct (Hb b eq_refl) as [H0 | H5];
        destruct b as [| b0 [| b1 [| b2 [| b3 [| b4 b']]]]];
        try (unfold len in *; simpl in *; lia);
        eexists _, _; split; reflexivity.
    + eexists _, _. split; reflexivity.
Qed.

Lemma short_baseline_breaks_display_witness :
  ((∃ b, baseline_data (receive init [[0; 1; 0]; [0; 1; 0; 8; 200]]) = Some b
         ∧ 0 < len b < 5) →
   display_data (receive init [[0; 1; 0]; [0; 1; 0; 8; 200]])
   = (receive init [[0; 1; 0]; [0; 1; 0; 8; 200]], Raise IndexError))
  ∧ ((∀ b, baseline_data (receive init [[0; 1; 0]; [0; 1; 0; 8; 200]]) = Some b
           → len b = 0 ∨ 5 ≤ len b) →
     ∃ rows i,
       snd (display_data (receive init [[0; 1; 0]; [0; 1; 0; 8; 200]]))
       = Ok (Bytes rows (Some i))
       ∧ last_data (fst (display_data
                           (receive init [[0; 1; 0]; [0; 1; 0; 8; 200]])))
         = Some [0; 1; 0; 8; 200]).
Proof.
  apply (short_baseline_breaks_display
           (receive init [[0; 1; 0]; [0; 1; 0; 8; 200]]) [0; 1; 0; 8; 200]).
  - reflexivity.
  - vm_compute. congruence.
Defined.

Lemma rows_unchanged (current : list Z) (n : nat) :
  Forall (λ r, change r = None)
    (imap (row_of (Some current)) (take n current)).
Proof.
  apply Forall_lookup. intros k r Hr.
  rewrite list_lookup_imap in Hr.
  destruct (take n current !! k) as [b |] eqn:Hb; [| discriminate Hr].
  injection Hr as <-. apply lookup_take_Some in Hb as [Hb _].
  unfold row_of. cbn [change from_option id].
  destruct (truthy (Some current)); [| reflexivity].
  rewrite Hb, Z.eqb_refl. reflexivity.
Qed.

(** X22. Displaying again without a new packet shows no change: after a
    display that showed the byte table, a second display returns
    without an exception, leaves the object as it is and marks no byte
    as changed. *)
Theorem redisplay_shows_no_change (self self1 : InteractiveAnalyzer)
    (rows : list row) (interp : option interpretation) :
  display_data self = (self1, Ok (Bytes rows interp)) →
  ∃ rows1, display_data self1 = (self1, Ok (Bytes rows1 interp))
    ∧ Forall (λ r, change r = None) rows1
    ∧ map byte_val rows1 = map byte_val rows.
Proof.
  unfold display_data.
  destruct (current_data self) as [[| c0 rest] |] eqn:Hc;
    cbn [truthy negb from_option id]; try discriminate.
  set (current := c0 :: rest) in *.
  destruct (5 <=? Z.min (len current) 10) eqn:H5.
  - destruct (interpret current (baseline_data self)) as [i | e] eqn:Hi;
      [| discriminate].
    intros [= <- <- <-].
    cbn [current_data last_data baseline_data packet_count truthy negb
         from_option id].
    fold current. rewrite H5, Hi. eexists. split; [reflexivity |].
    split; [apply rows_unchanged |].
    apply list_eq. intros k. rewrite !list_lookup_fmap, !list_lookup_imap.
    destruct (take _ current !! k); reflexivity.
  - intros [= <- <- <-].
    cbn [current_data last_data baseline_data packet_count truthy negb
         from_option id].
    fold current. rewrite H5. eexists. split; [reflexivity |].
    split; [apply rows_unchanged |].
    apply list_eq. intros k. rewrite !list_lookup_fmap, !list_lookup_imap.
    destruct (take _ current !! k); reflexivity.
Qed.

Lemma redisplay_shows_no_change_witness :
  ∃ rows1,
    display_data (fst (display_data (receive init [[0; 1; 0]])))
    = (fst (display_data (receive init [[0; 1; 0]])),
       Ok (Bytes rows1 None))
    ∧ Forall (λ r, change r = None) rows1
    ∧ map byte_val rows1 = map byte_val (imap (row_of None) [0; 1; 0]).
Proof.
  apply (redisplay_shows_no_change (receive init [[0; 1; 0]])).
  vm_compute. reflexivity.
Defined.

End DashboardProperties.
